(** * Student course list: lesson-type inference, viewer selection,
      playback completion and progress roll-up

    Shallow embedding of [src/courses/studentCourseList.jsx].

    Conventions of the embedding.
    - A JavaScript string is a [string]; an object property that may be
      [null], [undefined] or missing is an [option]; truthiness of such a
      property is [truthy] (absent and the empty string are falsy).
    - A JavaScript number that the code only stores, compares or passes
      on (a percentage reported by the backend, a playback position) is
      an exact rational ([Q]).  Where the code computes with numbers, in
      [calculateModuleProgress], they are binary64 doubles
      ([PrimFloat.float]) with the rounding of IEEE 754.
    - React state is an explicit record, a handler is a function from state
      to state, and what a handler does to the outside world (opening a
      window, invoking a callback prop, logging) is recorded in the state
      or returned next to it.
    - An [async] function is a tree of [Await] nodes; running it against a
      backend produces the trace of requests issued and settled. *)

From Stdlib Require Import List String Ascii Bool Arith ZArith QArith Qround Lia.
From Stdlib Require Import Permutation Sorted.
From Stdlib Require Floats.
Import ListNotations.

Local Open Scope string_scope.

(* ================================================================== *)
(** * JavaScript values and string methods                             *)
(* ================================================================== *)

Module JS.

(** Truthiness of a string: only the empty string is falsy. *)
Definition str_truthy (s : string) : bool :=
  match s with
  | EmptyString => false
  | String _ _ => true
  end.

(** Truthiness of an optional string property. *)
Definition truthy (v : option string) : bool :=
  match v with
  | Some s => str_truthy s
  | None => false
  end.

(** [a || b] on two optional properties. *)
Definition or_else (a b : option string) : option string :=
  if truthy a then a else b.

(** [a || 'literal']: the result is always a string. *)
Definition or_default (a : option string) (d : string) : string :=
  match a with
  | Some s => if str_truthy s then s else d
  | None => d
  end.

(** [s.startsWith(p)]. *)
Fixpoint startsWith (p s : string) : bool :=
  match p, s with
  | EmptyString, _ => true
  | String a p', String b s' => Ascii.eqb a b && startsWith p' s'
  | String _ _, EmptyString => false
  end.

(** [s.includes(sub)]. *)
Fixpoint includes (sub s : string) : bool :=
  startsWith sub s ||
  match s with
  | EmptyString => false
  | String _ s' => includes sub s'
  end.

(** [s.split(sep)] for a one-character separator: never the empty
    array, [''.split(sep)] is [['']]. *)
Fixpoint split (sep : ascii) (s : string) : list string :=
  match s with
  | EmptyString => [EmptyString]
  | String c s' =>
      if Ascii.eqb c sep then EmptyString :: split sep s'
      else match split sep s' with
           | h :: r => String c h :: r
           | [] => [String c EmptyString]
           end
  end.

(** [arr.pop()] read as the value it returns, on an array of strings
    that is not empty. *)
Definition pop (l : list string) : string := last l EmptyString.

(** [arr[0]] on an array of strings that is not empty. *)
Definition first (l : list string) : string := hd EmptyString l.

Definition lower_char (c : ascii) : ascii :=
  let n := nat_of_ascii c in
  if (65 <=? n)%nat && (n <=? 90)%nat then ascii_of_nat (n + 32) else c.

(** [s.toLowerCase()] on the ASCII letters. *)
Fixpoint toLowerCase (s : string) : string :=
  match s with
  | EmptyString => EmptyString
  | String c s' => String (lower_char c) (toLowerCase s')
  end.

End JS.

(* ================================================================== *)
(** * Numbers the code computes with                                   *)
(* ================================================================== *)

Module Double.

(** The number of a count or of an array length; such integers are far
    below 2^53 and have their exact double. *)
Definition of_nat (n : nat) : PrimFloat.float :=
  PrimFloat.of_uint63 (Uint63.of_Z (Z.of_nat n)).

(** [Math.round(x)].  A finite double is [v * 2^e] for an integer [v];
    its rounding is the integer [floor (x + 1/2)] of the exact sum, that
    is [floor ((2 v + 2^(-e)) / 2^(1 - e))] when [e] is negative (a
    right shift is the division by a power of two, rounded down).
    [Math.round] of NaN or of an infinity is no integer. *)
Definition Math_round (x : PrimFloat.float) : option Z :=
  match FloatOps.Prim2SF x with
  | SpecFloat.S754_zero _ => Some 0%Z
  | SpecFloat.S754_finite s m e =>
      let v := if s then Z.neg m else Z.pos m in
      Some (if (0 <=? e)%Z then Z.shiftl v e
            else Z.shiftr (2 * v + Z.shiftl 1 (- e)) (1 - e))%Z
  | _ => None
  end.

End Double.

(** The rounding of the specification: the nearest integer of an exact
    quotient, a tie going up. *)
Module Stated.


End Stated.

(* ================================================================== *)
(** * Data model                                                       *)
(* ================================================================== *)

Record Lesson := mkLesson {
  lesson_id : Z;
  lesson_title : option string;
  lesson_duration : option string;
  lesson_type : option string;
  content_url : option string;
  content_file : option string;
  lesson_description : option string;
  lesson_content : option string;
  is_completed : option bool
}.

Record Module_ := mkModule {
  module_id : Z;
  module_title : option string;
  lessons : option (list Lesson)
}.

Record Resource := mkResource {
  resource_id : Z;
  resource_title : option string;
  resource_type : option string;
  resource_content_url : option string;
  resource_content_file : option string;
  resource_description : option string
}.

Record Instructor := mkInstructor {
  instructor_name : string
}.

(** The [course] object nested in an enrolment record. *)
Record InnerCourse := mkInnerCourse {
  ic_id : Z;
  ic_title : option string;
  ic_thumbnail : option string;
  ic_description : option string;
  ic_resources : option (list Resource);
  ic_modules : option (list Module_);
  ic_instructors : option (list Instructor)
}.

(** An element of the [courses] prop: the enrolment record as the
    backend sends it. *)
Record Enrollment := mkEnrollment {
  enr_id : Z;
  enr_user : option Z;
  enr_bookmarked : bool;
  enr_enrolled_at : option string;
  enr_progress : Q;
  enr_status : option string;
  enr_started_at : option string;
  enr_completed_at : option string;
  enr_course : option InnerCourse
}.

(** An element of [filteredCourses]: the enrolment record spread, the
    display fields added and [status] overwritten. *)
Record Course := mkCourse {
  id : Z;
  user : option Z;
  bookmarked : bool;
  enrolled_at : option string;
  progress : Q;
  started_at : option string;
  completed_at : option string;
  course : option InnerCourse;
  courseId : Z;
  title : string;
  thumbnail : string;
  description : string;
  resources : list Resource;
  modules : list Module_;
  instructors : list Instructor;
  status : string
}.

(** [{ ...lesson, detectedType }] *)
Record SelectedLesson := mkSelectedLesson {
  sel_lesson : Lesson;
  detectedType : string
}.

Record Media := mkMedia {
  media_url : option string;
  media_title : string;
  media_description : string;
  media_type : string
}.

Record Document := mkDocument {
  doc_url : option string;
  doc_title : string;
  doc_type : option string
}.

(* ================================================================== *)
(** * Lesson-type inference ([inferLessonType])                        *)
(* ================================================================== *)

Definition lesson_url (lesson : Lesson) : string :=
  JS.or_default (JS.or_else (content_url lesson) (content_file lesson)) "".

(** [url.split('.').pop().split('?')[0].toLowerCase()] *)
Definition url_ext (url : string) : string :=
  JS.toLowerCase (JS.first (JS.split "?" (JS.pop (JS.split "." url)))).

(** [lesson.type && lesson.type !== 'Unknown' && lesson.type !== 'unknown'
    && lesson.type !== null] *)
Definition declared_usable (ty : option string) : bool :=
  match ty with
  | Some t => JS.str_truthy t && negb (t =? "Unknown") && negb (t =? "unknown")
  | None => false
  end.

Definition inferLessonType (lesson : Lesson) : string :=
  let url := lesson_url lesson in
  if negb (JS.str_truthy url) then "unknown" else
  let ext := url_ext url in
  if JS.includes "youtube.com" url || JS.includes "youtu.be" url then "youtube"
  else if ext =? "pdf" then "pdf"
  else if (ext =? "ppt") || (ext =? "pptx") then "ppt"
  else if (ext =? "doc") || (ext =? "docx") then "doc"
  else if declared_usable (lesson_type lesson)
       then match lesson_type lesson with Some t => t | None => "unknown" end
  else if JS.startsWith "http" url then "link"
  else "unknown".

(** ** Shapes of strings *)

Module ResolverSpec.

(** The character [c] occurs in [s]. *)
Definition occurs (c : ascii) (s : string) : Prop :=
  exists a b, s = a ++ String c b.

(** [sub] occurs in [s] as a contiguous substring. *)
Definition contains (sub s : string) : Prop :=
  exists a b, s = a ++ sub ++ b.

End ResolverSpec.

(** ** The resolver as the specification words it

    The algorithm of section 4.1, read on the text of the URL and not
    through the string methods the code calls. *)

Module StatedResolver.

(** The text before the first [c]: all of [s] when [c] does not occur. *)
Fixpoint before_first (c : ascii) (s : string) : string :=
  match s with
  | EmptyString => EmptyString
  | String a s' => if Ascii.eqb a c then EmptyString else String a (before_first c s')
  end.


(** The text after the last [c], when [c] occurs. *)
Fixpoint after_last (c : ascii) (s : string) : option string :=
  match s with
  | EmptyString => None
  | String a s' =>
      match after_last c s' with
      | Some t => Some t
      | None => if Ascii.eqb a c then Some s' else None
      end
  end.


Fixpoint drop (n : nat) (s : string) : string :=
  match n, s with
  | S n', String _ s' => drop n' s'
  | _, _ => s
  end.

(** The text after the first occurrence of [sub], when it occurs. *)
Fixpoint after_sub (sub s : string) : option string :=
  if JS.startsWith sub s then Some (drop (String.length sub) s)
  else match s with
       | EmptyString => None
       | String _ s' => after_sub sub s'
       end.

Fixpoint endsWith (suffix s : string) : bool :=
  (s =? suffix) ||
  match s with
  | EmptyString => false
  | String _ s' => endsWith suffix s'
  end.

(** The URL of the lesson, when one is present: the content URL, else
    the content file. *)
Definition present_url (l : Lesson) : option string :=
  match content_url l with
  | Some (String a u) => Some (String a u)
  | _ => match content_file l with
         | Some (String a f) => Some (String a f)
         | _ => None
         end
  end.

(** The host of a URL: what follows [://], up to the port, the path,
    the query string or the fragment. *)
Definition host (u : string) : option string :=
  option_map
    (fun r => before_first ":" (before_first "/" (before_first "?" (before_first "#" r))))
    (after_sub "://" u).

(** A YouTube domain: [youtube.com], [youtu.be] and their subdomains. *)
Definition youtube_host (h : string) : bool :=
  (h =? "youtube.com") || endsWith ".youtube.com" h ||
  (h =? "youtu.be") || endsWith ".youtu.be" h.

Definition youtube_domain (u : string) : bool :=
  match host u with
  | Some h => youtube_host h
  | None => false
  end.

(** The URL with its query string stripped. *)
Definition path (u : string) : string := before_first "?" u.

(** The file extension: what follows the last [.] of the path, letter
    case aside. *)
Definition file_extension (u : string) : option string :=
  option_map JS.toLowerCase (after_last "." (path u)).

(** The extensions that are recognised, and the type each gives. *)
Definition extension_type (e : string) : option string :=
  if e =? "pdf" then Some "pdf"
  else if (e =? "ppt") || (e =? "pptx") then Some "ppt"
  else if (e =? "doc") || (e =? "docx") then Some "doc"
  else None.

(** The declared type, when it is present and not a sentinel. *)
Definition declared (l : Lesson) : option string :=
  match lesson_type l with
  | Some t =>
      if (t =? "") || (t =? "Unknown") || (t =? "unknown") then None else Some t
  | None => None
  end.

(** The URL begins with an HTTP(S) scheme. *)
Definition http_scheme (u : string) : bool :=
  JS.startsWith "http://" u || JS.startsWith "https://" u.

(** The six steps, first match wins; the YouTube test and the link
    test are parameters. *)
Definition resolve (youtube link : string -> bool) (l : Lesson) : string :=
  match present_url l with
  | None => "unknown"
  | Some u =>
      if youtube u then "youtube"
      else match option_map extension_type (file_extension u) with
           | Some (Some t) => t
           | _ =>
               match declared l with
               | Some t => t
               | None => if link u then "link" else "unknown"
               end
           end
  end.

(** The algorithm as the specification states it. *)
Definition first_match : Lesson -> string := resolve youtube_domain http_scheme.

(** *** The two URL tests as the code makes them *)





(** The path has no [.] and is itself one of the recognised
    extensions, letter case aside. *)
Definition bare_extension (u : string) : bool :=
  match after_last "." (path u), extension_type (JS.toLowerCase (path u)) with
  | None, Some _ => true
  | _, _ => false
  end.

End StatedResolver.

(* ================================================================== *)
(** * Course dialog: selection of lessons and resources                *)
(* ================================================================== *)

Record Dialog := mkDialog {
  selectedLesson : option SelectedLesson;
  selectedMedia : option Media;
  selectedDocument : option Document;
  (** URLs handed to [window.open], most recent first *)
  opened : list (option string)
}.

Definition initialDialog : Dialog := mkDialog None None None [].

Definition setSelectedLesson (v : option SelectedLesson) (d : Dialog) : Dialog :=
  mkDialog v (selectedMedia d) (selectedDocument d) (opened d).

Definition setSelectedMedia (v : option Media) (d : Dialog) : Dialog :=
  mkDialog (selectedLesson d) v (selectedDocument d) (opened d).

Definition setSelectedDocument (v : option Document) (d : Dialog) : Dialog :=
  mkDialog (selectedLesson d) (selectedMedia d) v (opened d).

Definition window_open (u : option string) (d : Dialog) : Dialog :=
  mkDialog (selectedLesson d) (selectedMedia d) (selectedDocument d) (u :: opened d).

Definition handleLessonSelect (lesson : Lesson) (d : Dialog) : Dialog :=
  let detected := inferLessonType lesson in
  let lessonWithType := mkSelectedLesson lesson detected in
  let d := setSelectedLesson (Some lessonWithType) d in
  let d := setSelectedMedia None d in
  let d := setSelectedDocument None d in
  if (detected =? "video") || (detected =? "youtube") then
    setSelectedMedia
      (Some (mkMedia (JS.or_else (content_url lesson) (content_file lesson))
                     (JS.or_default (lesson_title lesson) "Lesson Media")
                     (JS.or_default (lesson_description lesson) "")
                     detected)) d
  else if detected =? "link" then
    window_open (JS.or_else (content_url lesson) (content_file lesson)) d
  else if (detected =? "pdf") || (detected =? "ppt") || (detected =? "doc") then
    setSelectedDocument
      (Some (mkDocument (JS.or_else (content_url lesson) (content_file lesson))
                        (JS.or_default (lesson_title lesson) "Lesson Document")
                        (Some detected))) d
  else d.

(** [resource.content_url?.includes(s)] *)
Definition url_includes (s : string) (u : option string) : bool :=
  match u with
  | Some v => JS.includes s v
  | None => false
  end.

Definition opt_is (v : option string) (s : string) : bool :=
  match v with
  | Some t => t =? s
  | None => false
  end.

Definition resource_is_youtube (r : Resource) : bool :=
  url_includes "youtube.com" (resource_content_url r) ||
  url_includes "youtu.be" (resource_content_url r).

Definition handleResourceSelect (r : Resource) (d : Dialog) : Dialog :=
  if opt_is (resource_type r) "video" || resource_is_youtube r then
    let d := setSelectedMedia
      (Some (mkMedia (JS.or_else (resource_content_url r) (resource_content_file r))
                     (JS.or_default (resource_title r) "Resource Media")
                     (JS.or_default (resource_description r) "")
                     (if resource_is_youtube r then "youtube" else "video"))) d in
    setSelectedDocument None d
  else if opt_is (resource_type r) "link" then
    window_open (resource_content_url r) d
  else
    let d := setSelectedDocument
      (Some (mkDocument (JS.or_else (resource_content_url r) (resource_content_file r))
                        (JS.or_default (resource_title r) "Resource Document")
                        (resource_type r))) d in
    setSelectedMedia None d.

(** What the user can do to the viewer state of the dialog. *)
Inductive Selection :=
| SelectLesson (l : Lesson)
| SelectResource (r : Resource)
| CloseMedia        (* MediaPlayer [onClose] *)
| CloseDocument     (* DocumentViewer [onClose] *)
| CloseDialog.      (* [handleDialogClose] *)

Definition select (d : Dialog) (e : Selection) : Dialog :=
  match e with
  | SelectLesson l => handleLessonSelect l d
  | SelectResource r => handleResourceSelect r d
  | CloseMedia => setSelectedMedia None d
  | CloseDocument => setSelectedDocument None d
  | CloseDialog =>
      setSelectedDocument None (setSelectedMedia None (setSelectedLesson None d))
  end.

Definition selections (es : list Selection) : Dialog :=
  fold_left select es initialDialog.

(** The two viewer states of the dialog. *)
Definition viewers (d : Dialog) : option Media * option Document :=
  (selectedMedia d, selectedDocument d).

Definition at_most_one_viewer (d : Dialog) : Prop :=
  selectedMedia d = None \/ selectedDocument d = None.

(** Both viewer states emptied, the rest of the dialog as it was. *)
Definition clearViewers (d : Dialog) : Dialog :=
  setSelectedDocument None (setSelectedMedia None d).

(** The selection [e] clears the viewer states first: what it leaves in
    them is what it leaves when they were empty before. *)
Definition clears_first (e : Selection) : Prop :=
  forall d, viewers (select d e) = viewers (select (clearViewers d) e).

(** The branch of [handleResourceSelect] that only opens a window. *)
Definition opens_link_only (r : Resource) : bool :=
  negb (opt_is (resource_type r) "video" || resource_is_youtube r) &&
  opt_is (resource_type r) "link".

(* ================================================================== *)
(** * Module progress ([calculateModuleProgress])                      *)
(* ================================================================== *)

Definition lesson_done (l : Lesson) : bool :=
  match is_completed l with
  | Some b => b
  | None => false
  end.

Definition completedLessons (ls : list Lesson) : nat :=
  List.length (filter lesson_done ls).

Section ModuleProgressCode.

Import PrimFloat.

(** [Math.round((completedLessons / module.lessons.length) * 100)], the
    division and the product in double precision. *)
Definition calculateModuleProgress (m : Module_) : option Z :=
  match lessons m with
  | None => Some 0%Z
  | Some [] => Some 0%Z
  | Some ls =>
      Double.Math_round
        (Double.of_nat (completedLessons ls) / Double.of_nat (List.length ls)
         * 100)%float
  end.

(** The percentage of [k] completed lessons out of [n], from their
    doubles. *)
Definition percentage (fk fn : float) : option Z :=
  Double.Math_round (fk / fn * 100)%float.

End ModuleProgressCode.

(** *** The percentages of all modules of up to 500 lessons

    [r] is an integer nearest to [100 k / n] when
    [|r - 100 k / n| <= 1/2], that is [2 |n r - 100 k| <= n]. *)
Definition nearest (k n r : Z) : bool :=
  (2 * Z.abs (n * r - 100 * k) <=? n)%Z.

(** A count with its integer and its double. *)
Definition cell (k : nat) : Z * PrimFloat.float := (Z.of_nat k, Double.of_nat k).

Definition cell_ok (cn ck : Z * PrimFloat.float) : bool :=
  match percentage (snd ck) (snd cn) with
  | Some r => nearest (fst ck) (fst cn) r
  | None => false
  end.

(** Every count of [todo] is checked against itself and the counts
    before it. *)
Fixpoint rows_ok (done todo : list (Z * PrimFloat.float)) : bool :=
  match todo with
  | [] => true
  | c :: t => forallb (cell_ok c) (c :: done) && rows_ok (c :: done) t
  end.

Definition table_ok (N : nat) : bool :=
  rows_ok [cell 0] (map cell (seq 1 N)).

(* ================================================================== *)
(** * The course list ([StudentCourseList])                            *)
(* ================================================================== *)

(** [courseId], [newStatus], ... are the arguments, [prev] the list the
    functional update of [setFilteredCourses] receives. *)
Definition handleCourseProgressUpdate
    (cid : Z) (newProgress : Q) (newStatus : string)
    (startedAt completedAt : option string) (prev : list Course) : list Course :=
  map (fun c =>
         if (courseId c =? cid)%Z then
           mkCourse (id c) (user c) (bookmarked c) (enrolled_at c)
                    newProgress startedAt completedAt
                    (course c) (courseId c) (title c) (thumbnail c)
                    (description c) (resources c) (modules c) (instructors c)
                    newStatus
         else c)
      prev.

(** A value or the [TypeError] a property access on [undefined] throws. *)
Inductive Outcome (A : Type) : Type :=
| Value (a : A)
| TypeError.
Arguments Value {A} a.
Arguments TypeError {A}.

(** [x > 0] on numbers. *)
Definition positive (x : Q) : bool := negb (Qle_bool x 0).

Definition transformLesson (l : Lesson) : Lesson :=
  mkLesson (lesson_id l) (lesson_title l) (lesson_duration l) (lesson_type l)
           (content_url l) (content_file l) (lesson_description l)
           (lesson_content l) (Some (lesson_done l)).

Definition transformModule (m : Module_) : Module_ :=
  mkModule (module_id m) (module_title m)
           (Some (map transformLesson
                      (match lessons m with Some ls => ls | None => [] end))).

Definition derivedStatus (completedAt : option string) (p : Q) : string :=
  if JS.truthy completedAt then "completed"
  else if positive p then "in_progress"
  else "not_started".

(** The body of the [courses.map] callback, the same in both effects.
    [None] is the [null] returned for a record without a [course];
    [API_BASE_URL] is imported from the configuration. *)
Definition transformCourse (API_BASE_URL : string) (c : Enrollment)
  : Outcome (option Course) :=
  match enr_course c with
  | None => Value None
  | Some ic =>
      match ic_thumbnail ic with
      | None => TypeError
      | Some th =>
          Value (Some
            (mkCourse (enr_id c) (enr_user c) (enr_bookmarked c) (enr_enrolled_at c)
               (enr_progress c) (enr_started_at c) (enr_completed_at c)
               (enr_course c)
               (ic_id ic)
               (JS.or_default (ic_title ic) "Untitled Course")
               (if JS.includes "http" th then th else API_BASE_URL ++ th)
               (JS.or_default (ic_description ic) "")
               (match ic_resources ic with Some r => r | None => [] end)
               (map transformModule
                    (match ic_modules ic with Some ms => ms | None => [] end))
               (match ic_instructors ic with Some i => i | None => [] end)
               (derivedStatus (enr_completed_at c) (enr_progress c))))
      end
  end.

(** [courses.map(...).filter(course => course !== null)] *)
Fixpoint transformCourses (API_BASE_URL : string) (cs : list Enrollment)
  : Outcome (list Course) :=
  match cs with
  | [] => Value []
  | c :: rest =>
      match transformCourse API_BASE_URL c with
      | TypeError => TypeError
      | Value oc =>
          match transformCourses API_BASE_URL rest with
          | TypeError => TypeError
          | Value l => Value (match oc with Some x => x :: l | None => l end)
          end
      end
  end.

(** The status of a course as the specification derives it from the
    completion timestamp and the progress of the record. *)
Definition status_derived (c : Course) : Prop :=
  (JS.truthy (completed_at c) = true -> status c = "completed") /\
  (JS.truthy (completed_at c) = false -> (0 < progress c)%Q ->
     status c = "in_progress") /\
  (JS.truthy (completed_at c) = false -> ~ (0 < progress c)%Q ->
     status c = "not_started").

Record Filters := mkFilters {
  f_status : string;
  f_search : string;
  f_sort : string;
  f_view : string
}.

Definition lessonMatches (q : string) (l : Lesson) : bool :=
  match lesson_title l with
  | Some t => JS.includes q (JS.toLowerCase t)
  | None => false
  end.

Definition moduleMatches (q : string) (m : Module_) : bool :=
  match module_title m with
  | Some t => JS.includes q (JS.toLowerCase t)
  | None => false
  end ||
  existsb (lessonMatches q) (match lessons m with Some ls => ls | None => [] end).

Definition courseMatches (q : string) (c : Course) : bool :=
  JS.includes q (JS.toLowerCase (title c)) || existsb (moduleMatches q) (modules c).

(** [result.filter((course, index) => bookmarks[index])] *)
Fixpoint filterByIndex (bookmarks : list bool) (l : list Course) {struct l}
  : list Course :=
  match l with
  | [] => []
  | c :: rest =>
      match bookmarks with
      | b :: bs => if b then c :: filterByIndex bs rest else filterByIndex bs rest
      | [] => []
      end
  end.

(** The filters of the second effect, in the order the effect applies
    them, before [result.sort]. *)
Definition applyFilters (f : Filters) (bookmarks : list bool) (l : list Course)
  : list Course :=
  let l := if JS.str_truthy (f_search f)
           then filter (courseMatches (JS.toLowerCase (f_search f))) l else l in
  let l := if negb (f_status f =? "all")
           then filter (fun c => status c =? f_status f) l else l in
  if f_view f =? "bookmarked" then filterByIndex bookmarks l else l.

(* ================================================================== *)
(** * Lesson completion ([handleLessonComplete])                       *)
(* ================================================================== *)

Inductive Request :=
| CompleteLesson (userId : option Z) (lesson : Z)
| GetCourseProgress (userId : option Z) (course : Z).

(** How a promise settles; a fulfilled progress request carries
    [data.progress]. *)
Inductive Response :=
| Fulfilled (data : Q)
| Rejected (error : string).

(** An [async] function body: it returns, or awaits a request and goes on
    with the way the request settled. *)
Inductive Async (A : Type) : Type :=
| Return (a : A)
| Await (r : Request) (k : Response -> Async A).
Arguments Return {A} a.
Arguments Await {A} r k.

Inductive Event :=
| Issued (r : Request)
| Settled (r : Request) (resp : Response).

(** The backend answers a request knowing everything that happened
    before it. *)
Definition Backend := list Event -> Request -> Response.

Fixpoint run {A : Type} (b : Backend) (p : Async A) (tr : list Event)
  : list Event * A :=
  match p with
  | Return a => (tr, a)
  | Await r k =>
      let tr1 := (tr ++ [Issued r])%list in
      let resp := b tr1 r in
      run b (k resp) (tr1 ++ [Settled r resp])%list
  end.

(** The state [handleLessonComplete] can reach: the list of the parent,
    the progress kept by the dialog and the console. *)
Record App := mkApp {
  filteredCourses : list Course;
  courseProgress : Q;
  console : list string
}.

Definition setCourseProgress (p : Q) (a : App) : App :=
  mkApp (filteredCourses a) p (console a).

Definition setFilteredCourses (f : list Course -> list Course) (a : App) : App :=
  mkApp (f (filteredCourses a)) (courseProgress a) (console a).

Definition console_error (e : string) (a : App) : App :=
  mkApp (filteredCourses a) (courseProgress a) (e :: console a).

(** [newProgress === 100] *)
Definition is100 (p : Q) : bool := Qeq_bool p 100.

(** [course] and [userId] are what the dialog was rendered with, [now]
    is [new Date().toISOString()]. *)
Definition handleLessonComplete
    (course : Course) (userId : option Z) (now : string) (lesson : SelectedLesson)
  : Async (App -> App) :=
  Await (CompleteLesson userId (lesson_id (sel_lesson lesson))) (fun r1 =>
  match r1 with
  | Rejected e => Return (console_error e)
  | Fulfilled _ =>
      Await (GetCourseProgress userId (courseId course)) (fun progressRes =>
      match progressRes with
      | Rejected e => Return (console_error e)
      | Fulfilled newProgress =>
          Return (fun app =>
            let app := setCourseProgress newProgress app in
            let newStatus := status course in
            let completedAt := completed_at course in
            let startedAt := started_at course in
            let '(newStatus, completedAt, startedAt) :=
              if is100 newProgress then
                ("completed", Some now, startedAt)
              else if positive newProgress && negb (JS.truthy (started_at course)) then
                ("in_progress", completedAt, Some now)
              else (newStatus, completedAt, startedAt) in
            setFilteredCourses
              (handleCourseProgressUpdate (courseId course) newProgress
                 newStatus startedAt completedAt) app)
      end)
  end).

(** One execution from the state [app]: the trace of backend traffic
    and the state when the function has returned. *)
Definition completeLesson
    (b : Backend) (course : Course) (userId : option Z) (now : string)
    (lesson : SelectedLesson) (app : App) : list Event * App :=
  let '(tr, f) := run b (handleLessonComplete course userId now lesson) [] in
  (tr, f app).

(** What the handler writes: [st], [sa] and [ca] are the status, start
    and completion timestamps computed for the percentage [p] at time
    [now] from [course], the object the dialog was rendered with (its
    [course] prop), which is not the record of the list that receives
    them. *)
Definition update_rule
    (course : Course) (now : string) (p : Q)
    (st : string) (sa ca : option string) : Prop :=
  ((p == 100)%Q ->
     st = "completed" /\ ca = Some now /\ sa = started_at course) /\
  (~ (p == 100)%Q -> (0 < p)%Q -> JS.truthy (started_at course) = false ->
     st = "in_progress" /\ sa = Some now /\ ca = completed_at course) /\
  (~ (p == 100)%Q -> ~ ((0 < p)%Q /\ JS.truthy (started_at course) = false) ->
     st = status course /\ sa = started_at course /\ ca = completed_at course).

(** Requests issued and not yet settled after [tr]. *)
Fixpoint in_flight (tr : list Event) : Z :=
  match tr with
  | [] => 0
  | Issued _ :: rest => in_flight rest + 1
  | Settled _ _ :: rest => in_flight rest - 1
  end.

Definition is_completion (e : Event) : Prop :=
  exists u l d, e = Settled (CompleteLesson u l) (Fulfilled d).

Definition is_progress_issue (e : Event) : Prop :=
  exists u c, e = Issued (GetCourseProgress u c).

(* ================================================================== *)
(** * Media player ([MediaPlayer], native video)                       *)
(* ================================================================== *)

(** The rates of the [<select>] of the controls bar. *)
Definition playbackRates : list Q := [0.5; 0.75; 1; 1.25; 1.5; 2]%Q.

(** The rate [r] is one of the options of the select. *)
Definition offered (r : Q) : Prop :=
  exists i r', nth_error playbackRates i = Some r' /\ (r' == r)%Q.

(** The state of the player for a [video] medium: it has a video
    element, whose [currentTime] is kept next to the React state.  The
    slider position, volume, mute and fullscreen flags take no part in
    completion and are left out. *)
Record Player := mkPlayer {
  playing : bool;
  completed : bool;
  duration : Q;
  playbackRate : Q;
  currentTime : Q;
  (** how many times the [onEnded] prop has been invoked *)
  onEnded_calls : nat
}.

Definition initialPlayer : Player := mkPlayer false false 0 1 0 0.

Inductive PlayerEvent :=
| LoadedMetadata (d : Q)   (* the element reports its duration *)
| PlayPause                (* click on the video or on the button *)
| TimeUpdate (t : Q)       (* the element reports a new position *)
| Ended                    (* the element has played to its end *)
| SelectRate (i : nat)     (* the i-th option of the rate select *)
| Replay                   (* button of the completion overlay *)
| Reopen.                  (* [open] becomes true *)

Definition handleTimeUpdate (p : Player) : Player :=
  if positive (duration p) && Qle_bool (duration p - 1) (currentTime p)
     && negb (completed p)
  then mkPlayer (playing p) true (duration p) (playbackRate p) (currentTime p)
                (onEnded_calls p)
  else p.

(** [provided] tells whether the [onEnded] prop was passed. *)
Definition player_step (provided : bool) (p : Player) (e : PlayerEvent) : Player :=
  match e with
  | LoadedMetadata d =>
      mkPlayer (playing p) (completed p) d (playbackRate p) (currentTime p)
               (onEnded_calls p)
  | PlayPause =>
      mkPlayer (negb (playing p)) (completed p) (duration p) (playbackRate p)
               (currentTime p) (onEnded_calls p)
  | TimeUpdate t =>
      handleTimeUpdate
        (mkPlayer (playing p) (completed p) (duration p) (playbackRate p) t
                  (onEnded_calls p))
  | Ended =>
      mkPlayer false true (duration p) (playbackRate p) (currentTime p)
               (if provided then S (onEnded_calls p) else onEnded_calls p)
  | SelectRate i =>
      match nth_error playbackRates i with
      | Some rate =>
          mkPlayer (playing p) (completed p) (duration p) rate (currentTime p)
                   (onEnded_calls p)
      | None => p
      end
  | Replay =>
      if completed p
      then mkPlayer false false (duration p) (playbackRate p) 0 (onEnded_calls p)
      else p
  | Reopen =>
      mkPlayer false false (duration p) (playbackRate p) 0 (onEnded_calls p)
  end.

Definition play_session (provided : bool) (es : list PlayerEvent) : Player :=
  fold_left (player_step provided) es initialPlayer.

(** The requests a trace issues, in order. *)
Fixpoint issued (tr : list Event) : list Request :=
  match tr with
  | [] => []
  | Issued r :: rest => r :: issued rest
  | Settled _ _ :: rest => issued rest
  end.

(* ================================================================== *)
(** * Document viewer ([DocumentViewer])                               *)
(* ================================================================== *)

Record ViewerState := mkViewerState {
  viewer_loading : bool;
  viewer_error : option string;
  viewer_fileUrl : option string
}.

Definition initialViewer : ViewerState := mkViewerState true None None.

Definition isOfficeType (t : string) : bool :=
  (t =? "doc") || (t =? "docx") || (t =? "ppt") || (t =? "pptx").

(** The effect of the viewer, keyed on [open], [document] and
    [fileUrl].  [encodeURIComponent] is the function of the browser. *)
Definition documentEffect
    (encodeURIComponent : string -> string)
    (open_ : bool) (document : option Document) (v : ViewerState) : ViewerState :=
  match document with
  | Some doc =>
      if negb open_ || negb (JS.truthy (doc_url doc)) || negb (JS.truthy (doc_type doc))
      then mkViewerState false (Some "Invalid document data") (viewer_fileUrl v)
      else
        let url := JS.or_default (doc_url doc) "" in
        let ty := JS.or_default (doc_type doc) "" in
        if JS.includes "youtube.com" url || JS.includes "youtu.be" url then
          mkViewerState false
            (Some "YouTube links should be viewed in the media player.")
            (viewer_fileUrl v)
        else if ty =? "pdf" then
          mkViewerState false None (Some url)
        else if isOfficeType ty then
          mkViewerState false None
            (Some ("https://view.officeapps.live.com/op/embed.aspx?src="
                   ++ encodeURIComponent url))
        else
          mkViewerState false
            (Some "This file type cannot be loaded directly. Please use the provided link to view the resource in a new tab.")
            (viewer_fileUrl v)
  | None => mkViewerState false (Some "Invalid document data") (viewer_fileUrl v)
  end.

(** What [renderViewer] returns. *)
Inductive Panel :=
| InvalidPanel                       (* "Invalid document data" and Close *)
| LoadingPanel
| ErrorPanel (message : string) (href : option string)
| IframePanel (src : option string)
| DownloadPanel (href : option string).

Definition renderViewer (document : option Document) (v : ViewerState) : Panel :=
  match document with
  | None => InvalidPanel
  | Some doc =>
      if negb (JS.truthy (doc_url doc)) || negb (JS.truthy (doc_type doc))
      then InvalidPanel
      else if viewer_loading v then LoadingPanel
      else match viewer_error v with
           | Some (String c m) => ErrorPanel (String c m) (doc_url doc)
           | _ =>
               let ty := JS.or_default (doc_type doc) "" in
               if (ty =? "pdf") || isOfficeType ty
               then IframePanel (viewer_fileUrl v)
               else DownloadPanel (doc_url doc)
           end
  end.

(* ================================================================== *)
(** * What the lesson pane of the dialog renders                       *)
(* ================================================================== *)

(** The inline [YouTubePlayer] is rendered. *)
Definition showsYouTubePlayer (d : Dialog) : bool :=
  match selectedLesson d, selectedMedia d with
  | Some sl, Some m => (detectedType sl =? "youtube") && (media_type m =? "youtube")
  | _, _ => false
  end.

(** The [MediaPlayer] is rendered. *)
Definition showsMediaPlayer (d : Dialog) : bool :=
  match selectedLesson d, selectedMedia d with
  | Some sl, Some m => (detectedType sl =? "video") && negb (media_type m =? "youtube")
  | _, _ => false
  end.

(** The [DocumentViewer] is rendered. *)
Definition showsDocumentViewer (d : Dialog) : bool :=
  match selectedLesson d, selectedDocument d with
  | Some sl, Some _ =>
      negb (detectedType sl =? "video") && negb (detectedType sl =? "youtube")
  | _, _ => false
  end.

(** How many times the effect keyed on [selectedLesson] calls
    [handleLessonComplete] when it runs in the state [d]. *)
Definition completionsOnSelect (d : Dialog) : nat :=
  match selectedLesson d with
  | Some sl =>
      Nat.add
        (if (detectedType sl =? "pdf") || (detectedType sl =? "ppt")
            || (detectedType sl =? "doc") then 1%nat else 0%nat)
        (if detectedType sl =? "link" then 1%nat else 0%nat)
  | None => 0%nat
  end.

(* ================================================================== *)
(** * Bookmarks ([handleBookmark])                                     *)
(* ================================================================== *)

(** An array of booleans; [None] is a slot that reads [undefined]. *)
Definition Bookmarks := list (option bool).

Definition slot_truthy (v : option bool) : bool :=
  match v with
  | Some b => b
  | None => false
  end.

(** [arr[index]], [undefined] past the end. *)
Definition slot (index : nat) (arr : Bookmarks) : option bool :=
  match nth_error arr index with
  | Some v => v
  | None => None
  end.

(** [arr[index] = v]: an index past the end extends the array, the
    slots in between read [undefined]. *)
Fixpoint assign (index : nat) (v : option bool) (arr : Bookmarks) : Bookmarks :=
  match index, arr with
  | O, [] => [v]
  | O, _ :: rest => v :: rest
  | S i, [] => None :: assign i v []
  | S i, x :: rest => x :: assign i v rest
  end.

(** The function [handleBookmark] throttles, as the functional update
    of [setBookmarks]. *)
Definition toggleBookmark (index : nat) (prev : Bookmarks) : Bookmarks :=
  assign index (Some (negb (slot_truthy (slot index prev)))) prev.

(** [courses.map(course => course.bookmarked || false)] *)
Definition initialBookmarks (cs : list Enrollment) : Bookmarks :=
  map (fun c => Some (enr_bookmarked c)) cs.

(* ================================================================== *)
(** * Inline YouTube player ([YouTubePlayer])                          *)
(* ================================================================== *)

(** [timer] tells whether [timerRef.current] holds an interval. *)
Record YouTubeState := mkYouTubeState {
  playedSeconds : nat;
  isPlaying : bool;
  yt_duration : Q;
  timer : bool;
  (** how many times the [onComplete] prop has been invoked *)
  onComplete_calls : nat
}.

Definition initialYouTube : YouTubeState := mkYouTubeState 0 false 0 false 0.

Inductive YouTubeEvent :=
| YReady (d : Q)     (* the embedded player is ready and reports its duration *)
| YPlay              (* the embedded player starts playing *)
| YPause             (* the embedded player pauses *)
| YTick              (* the interval fires *)
| YParentRender.     (* the dialog renders again: [onComplete] is a new function *)

(** The function the effect returns: React calls it before the effect
    runs again and when the component goes away. *)
Definition yt_cleanup (s : YouTubeState) : YouTubeState :=
  mkYouTubeState (playedSeconds s) (isPlaying s) (yt_duration s) false
                 (onComplete_calls s).

(** The body of the effect keyed on [playedSeconds], [duration] and
    [onComplete]; [provided] tells whether the prop was passed. *)
Definition yt_effect (provided : bool) (s : YouTubeState) : YouTubeState :=
  if Qle_bool (yt_duration s) (inject_Z (Z.of_nat (playedSeconds s)))
     && positive (yt_duration s)
  then mkYouTubeState (playedSeconds s) (isPlaying s) (yt_duration s) false
                      (if provided then S (onComplete_calls s)
                       else onComplete_calls s)
  else s.

(** A dependency of the effect has changed: clean up, then run it. *)
Definition yt_rerun (provided : bool) (s : YouTubeState) : YouTubeState :=
  yt_effect provided (yt_cleanup s).

Definition youtube_step (provided : bool) (s : YouTubeState) (e : YouTubeEvent)
  : YouTubeState :=
  match e with
  | YReady d =>
      if Qeq_bool d (yt_duration s) then s
      else yt_rerun provided
             (mkYouTubeState (playedSeconds s) (isPlaying s) d (timer s)
                             (onComplete_calls s))
  | YPlay =>
      mkYouTubeState (playedSeconds s) true (yt_duration s) true
                     (onComplete_calls s)
  | YPause =>
      mkYouTubeState (playedSeconds s) false (yt_duration s) false
                     (onComplete_calls s)
  | YTick =>
      if timer s
      then yt_rerun provided
             (mkYouTubeState (S (playedSeconds s)) (isPlaying s) (yt_duration s)
                             (timer s) (onComplete_calls s))
      else s
  | YParentRender => yt_rerun provided s
  end.

Definition youtube_session (provided : bool) (es : list YouTubeEvent)
  : YouTubeState :=
  fold_left (youtube_step provided) es initialYouTube.

Definition is_play (e : YouTubeEvent) : bool :=
  match e with
  | YPlay => true
  | _ => false
  end.

Definition plays (es : list YouTubeEvent) : nat :=
  List.length (filter is_play es).

(** ** The video id handed to the embedded player *)

Definition cons_char (c : ascii) (l : list string) : list string :=
  match l with
  | h :: r => String c h :: r
  | [] => [String c EmptyString]
  end.

(** [s.split(sep)] for the two-character separator [a b]. *)
Fixpoint split2 (a b : ascii) (s : string) : list string :=
  match s with
  | EmptyString => [EmptyString]
  | String c s' =>
      match s' with
      | EmptyString => [String c EmptyString]
      | String c' s'' =>
          if Ascii.eqb c a && Ascii.eqb c' b then EmptyString :: split2 a b s''
          else cons_char c (split2 a b s')
      end
  end.

(** [url.split('v=')[1]?.split('&')[0] || url.split('/').pop()] *)
Definition videoId (url : string) : string :=
  match nth_error (split2 "v" "=" url) 1 with
  | Some seg =>
      let x := JS.first (JS.split "&" seg) in
      if JS.str_truthy x then x else JS.pop (JS.split "/" url)
  | None => JS.pop (JS.split "/" url)
  end.

(* ================================================================== *)
(** * The second effect of the list: search, filters and sort          *)
(* ================================================================== *)

(** [module.lessons.some(lesson => lesson.title.toLowerCase()
    .includes(searchLower))]: it stops at the first match, and a lesson
    without a title met before that throws. *)
Fixpoint someLesson (q : string) (ls : list Lesson) : Outcome bool :=
  match ls with
  | [] => Value false
  | l :: rest =>
      match lesson_title l with
      | None => TypeError
      | Some t =>
          if JS.includes q (JS.toLowerCase t) then Value true
          else someLesson q rest
      end
  end.

(** [module.title.toLowerCase().includes(searchLower) ||
    module.lessons.some(...)]: a module without a title throws before
    its lessons are looked at. *)
Definition moduleMatchesT (q : string) (m : Module_) : Outcome bool :=
  match module_title m with
  | None => TypeError
  | Some t =>
      if JS.includes q (JS.toLowerCase t) then Value true
      else match lessons m with
           | Some ls => someLesson q ls
           | None => TypeError
           end
  end.

Fixpoint someModule (q : string) (ms : list Module_) : Outcome bool :=
  match ms with
  | [] => Value false
  | m :: rest =>
      match moduleMatchesT q m with
      | TypeError => TypeError
      | Value true => Value true
      | Value false => someModule q rest
      end
  end.

Definition courseMatchesT (q : string) (c : Course) : Outcome bool :=
  if JS.includes q (JS.toLowerCase (title c)) then Value true
  else someModule q (modules c).

(** [result.filter(course => ...)] with the search predicate. *)
Fixpoint searchCourses (q : string) (l : list Course) : Outcome (list Course) :=
  match l with
  | [] => Value []
  | c :: rest =>
      match courseMatchesT q c with
      | TypeError => TypeError
      | Value keep =>
          match searchCourses q rest with
          | TypeError => TypeError
          | Value l' => Value (if keep then c :: l' else l')
          end
      end
  end.

(** [Array.prototype.sort] with a comparator: the sort is stable, an
    element goes before the first one it does not compare above. *)
Fixpoint insertBy (cmp : Course -> Course -> Q) (x : Course) (l : list Course)
  : list Course :=
  match l with
  | [] => [x]
  | y :: rest =>
      if Qle_bool (cmp x y) 0 then x :: y :: rest
      else y :: insertBy cmp x rest
  end.

Definition sortWith (cmp : Course -> Course -> Q) (l : list Course) : list Course :=
  fold_right (insertBy cmp) [] l.

(** The comparator of [result.sort].  [localeCompare] and the numeric
    value of [new Date(x)] are those of the browser. *)
Definition compareCourses
    (localeCompare : string -> string -> Q) (dateValue : option string -> Q)
    (key : string) (a b : Course) : Q :=
  if key =? "title" then localeCompare (title a) (title b)
  else if key =? "progress" then (progress b - progress a)%Q
  else if key =? "enrolled_at"
       then (dateValue (enrolled_at b) - dateValue (enrolled_at a))%Q
  else 0.

(** The whole effect: what it hands to [setFilteredCourses], or the
    error it throws. *)
Definition filterEffect
    (API_BASE_URL : string)
    (localeCompare : string -> string -> Q) (dateValue : option string -> Q)
    (courses : list Enrollment) (f : Filters) (bookmarks : Bookmarks)
  : Outcome (list Course) :=
  match transformCourses API_BASE_URL courses with
  | TypeError => TypeError
  | Value result =>
      match (if JS.str_truthy (f_search f)
             then searchCourses (JS.toLowerCase (f_search f)) result
             else Value result) with
      | TypeError => TypeError
      | Value result =>
          let result :=
            if negb (f_status f =? "all")
            then filter (fun c => status c =? f_status f) result else result in
          let result :=
            if f_view f =? "bookmarked"
            then filterByIndex (map slot_truthy bookmarks) result else result in
          Value (sortWith (compareCourses localeCompare dateValue (f_sort f)) result)
      end
  end.

(** ** The statistics row *)

Definition countStatus (s : string) (cs : list Enrollment) : nat :=
  List.length (filter (fun c => opt_is (enr_status c) s) cs).

Record Stats := mkStats {
  stat_total : nat;
  stat_inProgress : nat;
  stat_completed : nat;
  stat_notStarted : nat
}.

Definition stats (cs : list Enrollment) : Stats :=
  mkStats (List.length cs)
          (countStatus "in_progress" cs)
          (countStatus "completed" cs)
          (countStatus "not_started" cs).

(** ** The course card *)

(** The label of the primary button. *)
Definition cardAction (c : Course) : string :=
  if positive (progress c) then "Continue" else "Start".

(** Every module and every lesson the search may look at has a title,
    and every module its list of lessons. *)
Definition well_titled (c : Course) : Prop :=
  forall m, In m (modules c) ->
    module_title m <> None /\
    exists ls, lessons m = Some ls /\
               forall l, In l ls -> lesson_title l <> None.

(** The course contains the term [q] in its title, in the title of one
    of its modules or in the title of one of their lessons, letter case
    aside. *)
Definition mentions (q : string) (c : Course) : Prop :=
  ResolverSpec.contains q (JS.toLowerCase (title c)) \/
  exists m, In m (modules c) /\
    ((exists t, module_title m = Some t /\
                ResolverSpec.contains q (JS.toLowerCase t)) \/
     exists ls l t, lessons m = Some ls /\ In l ls /\ lesson_title l = Some t /\
                    ResolverSpec.contains q (JS.toLowerCase t)).

(** Descending progress. *)
Definition progress_desc (a b : Course) : Prop := (progress b <= progress a)%Q.

Definition is_ended (e : PlayerEvent) : bool :=
  match e with
  | Ended => true
  | _ => false
  end.

(** How many times the element fired [ended] in the session. *)
Definition endings (es : list PlayerEvent) : nat :=
  List.length (filter is_ended es).

(* ================================================================== *)
(** * Sample data                                                      *)
(* ================================================================== *)

Module Sample.

Definition pdfLesson : Lesson :=
  mkLesson 1 (Some "Notes") None None (Some "notes.pdf") None None None None.



Definition slides : Lesson :=
  mkLesson 7 (Some "Slides") None (Some "video")
           (Some "https://cdn.example.org/week1/Intro.PPTX?dl=1") None
           None None (Some false).

Definition linkResource : Resource :=
  mkResource 9 (Some "Site") (Some "link") (Some "https://example.org") None None.

Definition algebra : Course :=
  mkCourse 11 (Some 3%Z) false (Some "2024-01-10T08:00:00.000Z")
           0 None None None
           5 "Algebra" "https://example.org/a.png" "" [] [] []
           "not_started".

Definition geometry : Course :=
  mkCourse 12 (Some 3%Z) true (Some "2024-02-01T08:00:00.000Z")
           40 (Some "2024-02-02T09:00:00.000Z") None None
           6 "Geometry" "https://example.org/g.png" "" [] [] []
           "in_progress".

(** Two courses with their modules and lessons. *)
Definition calculus : Course :=
  mkCourse 13 (Some 3%Z) false (Some "2024-03-01T08:00:00.000Z")
           0 None None None
           7 "Calculus" "https://example.org/c.png" ""
           [] [mkModule 1 (Some "Limits") (Some [pdfLesson])] []
           "not_started".

Definition statistics : Course :=
  mkCourse 14 (Some 3%Z) false (Some "2024-03-02T08:00:00.000Z")
           0 None None None
           8 "Statistics" "https://example.org/s.png" ""
           [] [mkModule 2 (Some "Samples")
                 (Some [mkLesson 2 (Some "Mean") None None None None None None None])] []
           "not_started".

(** A course one of whose modules has no title. *)
Definition untitled : Course :=
  mkCourse 15 (Some 3%Z) false (Some "2024-03-03T08:00:00.000Z")
           0 None None None
           9 "Drafts" "https://example.org/d.png" ""
           [] [mkModule 3 None (Some [pdfLesson])] []
           "not_started".

Definition doneLesson : Lesson :=
  mkLesson 1 (Some "Exercise") None None None None None None (Some true).

Definition openLesson : Lesson :=
  mkLesson 2 (Some "Exercise") None None None None None None (Some false).


Definition app : App := mkApp [algebra; geometry] 0 [].

Definition selected : SelectedLesson := mkSelectedLesson pdfLesson "pdf".

Definition selectedSlides : SelectedLesson := mkSelectedLesson slides "ppt".

(** A backend that accepts the completion and reports [p]. *)
Definition reports (p : Q) : Backend :=
  fun _ r =>
    match r with
    | CompleteLesson _ _ => Fulfilled 0
    | GetCourseProgress _ _ => Fulfilled p
    end.

(** A backend that accepts the completion and fails the progress
    request. *)
Definition failsProgress : Backend :=
  fun _ r =>
    match r with
    | CompleteLesson _ _ => Fulfilled 0
    | GetCourseProgress _ _ => Rejected "Network Error"
    end.

Definition enrolment : Enrollment :=
  mkEnrollment 11 (Some 3%Z) false (Some "2024-01-10T08:00:00.000Z")
               30 None None (Some "2024-03-01T10:00:00.000Z")
               (Some (mkInnerCourse 5 (Some "Algebra") (Some "/media/a.png")
                                    None None None None)).

End Sample.

(* ================================================================== *)
(** * Facts about the string methods                                   *)
(* ================================================================== *)

Section StringFacts.

Import ResolverSpec.

Lemma startsWith_spec (p s : string) :
  JS.startsWith p s = true <-> exists t, s = p ++ t.
Proof.
  revert s; induction p as [|a p IH]; intros s; simpl.
  - split; [intros _; now exists s | reflexivity].
  - destruct s as [|b s].
    + split; [discriminate | intros [t Ht]; discriminate].
    + rewrite andb_true_iff, IH. split.
      * intros [Hab [t ->]]. apply Ascii.eqb_eq in Hab. subst b. now exists t.
      * intros [t Ht]. injection Ht as -> ->. split.
        -- apply Ascii.eqb_refl.
        -- now exists t.
Qed.

Lemma includes_spec (sub s : string) :
  JS.includes sub s = true <-> contains sub s.
Proof.
  unfold contains. split.
  - induction s as [|c s IH]; simpl; rewrite orb_true_iff.
    + intros [H | H]; [|discriminate].
      apply startsWith_spec in H. destruct H as [t Ht].
      exists "", t. exact Ht.
    + intros [H | H].
      * apply startsWith_spec in H. destruct H as [t Ht].
        exists "", t. exact Ht.
      * destruct (IH H) as (a & b & ->). now exists (String c a), b.
  - intros (a & b & ->). induction a as [|c a IH]; simpl.
    + assert (H : JS.startsWith sub (sub ++ b) = true)
        by (apply startsWith_spec; now exists b).
      destruct (sub ++ b); simpl; rewrite H; reflexivity.
    + rewrite IH. apply orb_true_r.
Qed.

Lemma occurs_nil (c : ascii) : ~ occurs c "".
Proof. intros (a & b & H). destruct a; discriminate. Qed.

Lemma occurs_cons (c x : ascii) (s : string) :
  occurs c (String x s) <-> x = c \/ occurs c s.
Proof.
  split.
  - intros (a & b & H). destruct a as [|y a]; simpl in H.
    + injection H as -> ->. now left.
    + injection H as -> ->. right. now exists a, b.
  - intros [-> | (a & b & ->)].
    + now exists "", s.
    + now exists (String x a), b.
Qed.

Lemma split_nonempty (sep : ascii) (s : string) : JS.split sep s <> [].
Proof.
  destruct s as [|c s]; simpl; [discriminate|].
  destruct (Ascii.eqb c sep); [discriminate|].
  destruct (JS.split sep s); discriminate.
Qed.

Lemma split_no_sep (sep : ascii) (s : string) :
  ~ occurs sep s -> JS.split sep s = [s].
Proof.
  induction s as [|c s IH]; intros H; simpl; [reflexivity|].
  destruct (Ascii.eqb_spec c sep) as [-> | Hne].
  - exfalso. apply H, occurs_cons. now left.
  - rewrite IH; [reflexivity|]. intros Hs. apply H, occurs_cons. now right.
Qed.

Lemma split_app (sep : ascii) (a b : string) :
  JS.split sep (a ++ String sep b) = (JS.split sep a ++ JS.split sep b)%list.
Proof.
  induction a as [|c a IH]; simpl.
  - now rewrite Ascii.eqb_refl.
  - destruct (Ascii.eqb c sep); rewrite IH; [reflexivity|].
    pose proof (split_nonempty sep a) as Hne.
    destruct (JS.split sep a); [contradiction | reflexivity].
Qed.

Lemma split_singleton (sep : ascii) (s h : string) :
  JS.split sep s = [h] -> s = h.
Proof.
  revert h; induction s as [|c s IH]; intros h; simpl.
  - now intros [= <-].
  - destruct (Ascii.eqb c sep).
    + intros [= <- H]. now apply split_nonempty in H.
    + destruct (JS.split sep s) as [|h' r] eqn:E.
      * now apply split_nonempty in E.
      * intros [= <- ->]. now rewrite (IH h').
Qed.

(** What [split(sep).pop()] returns: the part after the last [sep]. *)
Lemma pop_split_spec (sep : ascii) (s seg : string) :
  JS.pop (JS.split sep s) = seg <->
  ~ occurs sep seg /\ (s = seg \/ exists pre, s = pre ++ String sep seg).
Proof.
  unfold JS.pop. split.
  - revert seg; induction s as [|c s IH]; intros seg; simpl.
    + intros <-. split; [apply occurs_nil | now left].
    + destruct (Ascii.eqb_spec c sep) as [-> | Hne].
      * pose proof (split_nonempty sep s) as Hs.
        destruct (JS.split sep s) as [|h r] eqn:E; [contradiction|].
        intros H. destruct (IH seg H) as [Hno [-> | (pre & ->)]].
        -- split; [exact Hno|]. right. now exists "".
        -- split; [exact Hno|]. right. now exists (String sep pre).
      * destruct (JS.split sep s) as [|h r] eqn:E.
        { now apply split_nonempty in E. }
        destruct r as [|r0 r].
        -- intros <-. apply split_singleton in E. subst h.
           destruct (IH s eq_refl) as [Hno _].
           split; [|now left].
           simpl. rewrite occurs_cons. intros [Hc | Hc]; [now apply Hne | now apply Hno].
        -- intros H.
           assert (H' : last (h :: r0 :: r) "" = seg) by exact H.
           destruct (IH seg H') as [Hno [-> | (pre & ->)]].
           ++ rewrite (split_no_sep _ _ Hno) in E. discriminate.
           ++ split; [exact Hno|]. right. now exists (String c pre).
  - intros [Hno [-> | (pre & ->)]].
    + now rewrite split_no_sep.
    + rewrite split_app, (split_no_sep _ _ Hno). apply last_last.
Qed.

(** What [split(sep)[0]] returns: the part before the first [sep]. *)
Lemma first_split_spec (sep : ascii) (s base : string) :
  JS.first (JS.split sep s) = base <->
  ~ occurs sep base /\ (s = base \/ exists q, s = base ++ String sep q).
Proof.
  unfold JS.first. split.
  - revert base; induction s as [|c s IH]; intros base; simpl.
    + intros <-. split; [apply occurs_nil | now left].
    + destruct (Ascii.eqb_spec c sep) as [-> | Hne].
      * simpl. intros <-. split; [apply occurs_nil|]. right. now exists s.
      * destruct (JS.split sep s) as [|h r] eqn:E.
        { now apply split_nonempty in E. }
        simpl. intros <-.
        destruct (IH h eq_refl) as [Hno Hs]. split.
        -- rewrite occurs_cons. intros [Hc | Hc]; [now apply Hne | now apply Hno].
        -- destruct Hs as [-> | (q & ->)]; [now left | right; now exists q].
  - intros [Hno [-> | (q & ->)]].
    + now rewrite split_no_sep.
    + rewrite split_app, (split_no_sep _ _ Hno). reflexivity.
Qed.

Import StatedResolver.





Section TwoCharacters.

Variables c d : ascii.
Hypothesis Hcd : c <> d.



End TwoCharacters.


End StringFacts.

(* ================================================================== *)
(** * The resolver computes the first match                            *)
(* ================================================================== *)

Section Resolver.

Import ResolverSpec StatedResolver.

Lemma str_truthy_spec (s : string) : JS.str_truthy s = true <-> s <> "".
Proof. destruct s; simpl; split; congruence. Qed.

(** The code, with its extension tests gathered in one place. *)
Lemma inferLessonType_unfold (l : Lesson) :
  inferLessonType l =
  let url := lesson_url l in
  if negb (JS.str_truthy url) then "unknown"
  else if JS.includes "youtube.com" url || JS.includes "youtu.be" url then "youtube"
  else match (if url_ext url =? "pdf" then Some "pdf"
              else if (url_ext url =? "ppt") || (url_ext url =? "pptx") then Some "ppt"
              else if (url_ext url =? "doc") || (url_ext url =? "docx") then Some "doc"
              else None) with
       | Some t => t
       | None =>
           if declared_usable (lesson_type l)
           then match lesson_type l with Some t => t | None => "unknown" end
           else if JS.startsWith "http" url then "link" else "unknown"
       end.
Proof.
  unfold inferLessonType. cbv zeta.
  destruct (negb _); [reflexivity|].
  destruct (_ || _); [reflexivity|].
  destruct (url_ext _ =? "pdf"); [reflexivity|].
  destruct ((url_ext _ =? "ppt") || _); [reflexivity|].
  destruct ((url_ext _ =? "doc") || _); reflexivity.
Qed.





End Resolver.




(** The YouTube test of the specification is on the host of the URL;
    the code looks for the domain anywhere in the URL, before it looks
    at the extension. *)
Remark youtube_outside_the_host :
  let l := mkLesson 1 None None (Some "pdf")
             (Some "https://cdn.example.org/youtube.com-notes.pdf") None
             None None None in
  StatedResolver.first_match l = "pdf" /\ inferLessonType l = "youtube".
Proof. split; reflexivity. Qed.

(** The link test of the specification is on the scheme; the code
    tests the first four letters. *)
Remark http_without_scheme :
  let l := mkLesson 1 None None None None (Some "httpdocs/notes.txt")
             None None None in
  StatedResolver.first_match l = "unknown" /\ inferLessonType l = "link".
Proof. split; reflexivity. Qed.

(** A lesson without URL and file resolves to [unknown]; selecting it
    opens no viewer and no window. *)
Remark empty_lesson_opens_nothing :
  let l := mkLesson 1 (Some "Empty") None (Some "video") None None None None None in
  inferLessonType l = "unknown" /\
  viewers (selections [SelectLesson l]) = (None, None) /\
  opened (selections [SelectLesson l]) = [].
Proof. repeat split. Qed.

(** Without a [.] the whole URL, up to the first [?], is taken for the
    extension by the code; it has no file extension. *)
Remark dotless_url_is_its_extension :
  StatedResolver.file_extension "PDF" = None /\
  StatedResolver.bare_extension "PDF" = true /\
  inferLessonType (mkLesson 1 None None None None (Some "PDF") None None None)
  = "pdf".
Proof. repeat split. Qed.

(* ================================================================== *)
(** * Selection keeps at most one viewer                               *)
(* ================================================================== *)

Section Selection.

Lemma handleLessonSelect_viewers (l : Lesson) (d d' : Dialog) :
  viewers (handleLessonSelect l d) = viewers (handleLessonSelect l d').
Proof.
  unfold handleLessonSelect. cbv zeta.
  destruct (_ || _); [reflexivity|].
  destruct (_ =? "link"); [reflexivity|].
  destruct (_ || _); reflexivity.
Qed.

Lemma handleLessonSelect_one (l : Lesson) (d : Dialog) :
  at_most_one_viewer (handleLessonSelect l d).
Proof.
  unfold handleLessonSelect, at_most_one_viewer. cbv zeta.
  destruct (_ || _); [now right|].
  destruct (_ =? "link"); [now left|].
  destruct (_ || _); now left.
Qed.

Lemma handleResourceSelect_one (r : Resource) (d : Dialog) :
  at_most_one_viewer d -> at_most_one_viewer (handleResourceSelect r d).
Proof.
  unfold handleResourceSelect, at_most_one_viewer. cbv zeta.
  destruct (_ || _); [now right|].
  destruct (opt_is _ "link"); [easy | now left].
Qed.

Lemma select_one (d : Dialog) (e : Selection) :
  at_most_one_viewer d -> at_most_one_viewer (select d e).
Proof.
  destruct e; simpl.
  - intros _. apply handleLessonSelect_one.
  - apply handleResourceSelect_one.
  - now left.
  - now right.
  - now left.
Qed.

Lemma fold_select_one (es : list Selection) (d : Dialog) :
  at_most_one_viewer d -> at_most_one_viewer (fold_left select es d).
Proof.
  revert d; induction es as [|e es IH]; intros d H; simpl; [exact H|].
  apply IH, select_one, H.
Qed.

Lemma resource_clears_unless_link (r : Resource) :
  opens_link_only r = false -> clears_first (SelectResource r).
Proof.
  unfold opens_link_only, clears_first, handleResourceSelect. simpl.
  unfold handleResourceSelect. cbv zeta.
  destruct (_ || _); [reflexivity|]. simpl.
  intros -> d. reflexivity.
Qed.

Lemma resource_link_keeps (r : Resource) (d : Dialog) :
  opens_link_only r = true ->
  viewers (handleResourceSelect r d) = viewers d.
Proof.
  unfold opens_link_only, handleResourceSelect. cbv zeta.
  destruct (_ || _); [discriminate|]. simpl.
  intros ->. reflexivity.
Qed.

End Selection.

(** C4, as amended. After every sequence of selections at most one of
    the two viewer states is set.  Selecting a lesson clears both viewer
    states first, and so does selecting a resource that is shown in a
    viewer; selecting a resource of type [link] (neither a video nor a
    YouTube URL) only opens a window and leaves both viewer states as
    they were. *)
Theorem selection_keeps_one_viewer :
  (forall es, at_most_one_viewer (selections es)) /\
  (forall l, clears_first (SelectLesson l)) /\
  (forall r, opens_link_only r = false -> clears_first (SelectResource r)) /\
  (forall r d, opens_link_only r = true ->
               viewers (select d (SelectResource r)) = viewers d).
Proof.
  split; [|split; [|split]].
  - intros es. apply fold_select_one. now left.
  - intros l d. apply handleLessonSelect_viewers.
  - apply resource_clears_unless_link.
  - intros r d. apply resource_link_keeps.
Qed.

Lemma selection_keeps_one_viewer_witness :
  viewers (select (selections [SelectLesson Sample.pdfLesson])
                  (SelectResource Sample.linkResource))
  = viewers (selections [SelectLesson Sample.pdfLesson]).
Proof.
  apply (proj2 (proj2 (proj2 selection_keeps_one_viewer))).
  reflexivity.
Defined.

(** C4 as stated fails: with the document of a PDF lesson in the
    viewer, selecting a [link] resource clears nothing, the document
    stays selected. *)
Lemma link_resource_does_not_clear :
  let before := selections [SelectLesson Sample.pdfLesson] in
  let after := select before (SelectResource Sample.linkResource) in
  selectedDocument before <> None /\
  selectedDocument after = selectedDocument before /\
  ~ clears_first (SelectResource Sample.linkResource).
Proof.
  split; [|split].
  - vm_compute. discriminate.
  - reflexivity.
  - intros H.
    specialize (H (selections [SelectLesson Sample.pdfLesson])).
    vm_compute in H. discriminate H.
Qed.

(* ================================================================== *)
(** * Module progress is a percentage                                  *)
(* ================================================================== *)

Section ModuleProgress.

Local Open Scope Z_scope.





Lemma nearest_monotone (k k' n r r' : Z) :
  0 < n -> k < k' ->
  nearest k n r = true -> nearest k' n r' = true -> r <= r'.
Proof.
  unfold nearest. intros Hn Hk H H'.
  apply Z.leb_le in H. apply Z.leb_le in H'. nia.
Qed.

Lemma rows_ok_spec (todo : list (Z * PrimFloat.float)) :
  forall done, rows_ok done todo = true ->
  forall pre c post, todo = (pre ++ c :: post)%list ->
  forall c', In c' (c :: rev pre ++ done)%list -> cell_ok c c' = true.
Proof.
  induction todo as [|c0 t IH]; intros done H pre c post E c' Hin.
  - destruct pre; discriminate E.
  - simpl in H. apply andb_prop in H. destruct H as [Hrow Hrest].
    destruct pre as [|c1 pre]; simpl in E; injection E as <- ->.
    + change (forallb (cell_ok c0) (c0 :: done) = true) in Hrow.
      apply (proj1 (forallb_forall _ _) Hrow). exact Hin.
    + apply (IH (c0 :: done) Hrest pre c post eq_refl).
      simpl in Hin. rewrite <- app_assoc in Hin. exact Hin.
Qed.

Lemma table_ok_spec (N k n : nat) :
  table_ok N = true -> (1 <= n <= N)%nat -> (k <= n)%nat ->
  cell_ok (cell n) (cell k) = true.
Proof.
  intros H Hn Hk. unfold table_ok in H.
  assert (E : seq 1 N = (seq 1 (n - 1) ++ n :: seq (S n) (N - n))%list).
  { replace N with ((n - 1) + S (N - n))%nat at 1 by lia.
    rewrite seq_app. simpl. repeat f_equal; lia. }
  rewrite E, map_app in H. cbn [map] in H.
  apply (rows_ok_spec _ _ H _ _ _ eq_refl).
  destruct (Nat.eq_dec k n) as [->|Hne]; [now left|right].
  apply in_or_app.
  destruct k as [|k]; [right; now left|left].
  apply (proj1 (in_rev _ _)), in_map, in_seq. lia.
Qed.

(** The double computation checked on every module of up to 500
    lessons. *)
Lemma percentages_checked : table_ok 500 = true.
Proof. vm_compute. reflexivity. Qed.

Lemma completedLessons_le (ls : list Lesson) :
  (completedLessons ls <= List.length ls)%nat.
Proof. apply filter_length_le. Qed.

Lemma calculateModuleProgress_nonempty (m : Module_) (ls : list Lesson) :
  lessons m = Some ls -> (1 <= List.length ls)%nat ->
  calculateModuleProgress m =
  percentage (Double.of_nat (completedLessons ls)) (Double.of_nat (List.length ls)).
Proof.
  intros Hm Hn. unfold calculateModuleProgress. rewrite Hm.
  destruct ls as [|l ls]; [simpl in Hn; lia|]. reflexivity.
Qed.

Lemma calculateModuleProgress_empty (m : Module_) :
  lessons m = None \/ lessons m = Some [] -> calculateModuleProgress m = Some 0.
Proof. unfold calculateModuleProgress. intros [-> | ->]; reflexivity. Qed.

(** Up to 500 lessons the sidebar shows an integer nearest to the
    exact percentage. *)
Lemma calculateModuleProgress_nearest (m : Module_) (ls : list Lesson) :
  lessons m = Some ls -> (1 <= List.length ls <= 500)%nat ->
  exists r, calculateModuleProgress m = Some r /\
            nearest (Z.of_nat (completedLessons ls)) (Z.of_nat (List.length ls)) r = true.
Proof.
  intros Hm Hn.
  rewrite (calculateModuleProgress_nonempty m ls Hm) by lia.
  pose proof (table_ok_spec 500 (completedLessons ls) (List.length ls)
               percentages_checked Hn (completedLessons_le ls)) as H.
  unfold cell_ok, cell in H. cbn [fst snd] in H.
  destruct (percentage _ _) as [r|]; [|discriminate].
  now exists r.
Qed.

End ModuleProgress.




(** Half of the lessons completed is 50 percent, one of eight is 13
    (the tie 12.5 is exact and goes up). *)
Example module_progress_half :
  calculateModuleProgress
    (mkModule 1 (Some "Week 1")
       (Some [mkLesson 1 None None None None None None None (Some true);
              mkLesson 2 None None None None None None None (Some false)]))
  = Some 50%Z /\
  calculateModuleProgress
    (mkModule 1 (Some "Week 1")
       (Some (Sample.doneLesson :: repeat Sample.openLesson 7)))
  = Some 13%Z.
Proof. split; vm_compute; reflexivity. Qed.

(* ================================================================== *)
(** * The progress update touches one course and four fields           *)
(* ================================================================== *)

Section ProgressUpdate.

Variables (cid : Z) (newProgress : Q) (newStatus : string)
          (startedAt completedAt : option string).

Let update := handleCourseProgressUpdate cid newProgress newStatus startedAt completedAt.

Lemma update_length (prev : list Course) :
  List.length (update prev) = List.length prev.
Proof. apply length_map. Qed.

Lemma update_nth (prev : list Course) (i : nat) (c : Course) :
  nth_error prev i = Some c ->
  nth_error (update prev) i =
  Some (if (courseId c =? cid)%Z
        then mkCourse (id c) (user c) (bookmarked c) (enrolled_at c)
                      newProgress startedAt completedAt
                      (course c) (courseId c) (title c) (thumbnail c)
                      (description c) (resources c) (modules c) (instructors c)
                      newStatus
        else c).
Proof.
  intros H. unfold update, handleCourseProgressUpdate.
  rewrite nth_error_map, H. reflexivity.
Qed.

Lemma update_matching (prev : list Course) :
  Forall (fun c' => courseId c' = cid ->
                    progress c' = newProgress /\ status c' = newStatus /\
                    started_at c' = startedAt /\ completed_at c' = completedAt)
         (update prev).
Proof.
  unfold update, handleCourseProgressUpdate. apply Forall_map, Forall_forall.
  intros c _. destruct (Z.eqb_spec (courseId c) cid) as [E | E]; simpl.
  - intros _. repeat split.
  - intros E'. contradiction.
Qed.

End ProgressUpdate.

(** C10. [handleCourseProgressUpdate] changes only the courses whose
    [courseId] is the one given, and of those only [progress], [status],
    [started_at] and [completed_at]: the list keeps its length and order,
    every other course is the same record, and every other field of a
    matching course is preserved. *)
Theorem handleCourseProgressUpdate_frame
    (cid : Z) (newProgress : Q) (newStatus : string)
    (startedAt completedAt : option string) (prev : list Course) :
  let next :=
    handleCourseProgressUpdate cid newProgress newStatus startedAt completedAt prev in
  List.length next = List.length prev /\
  forall i c, nth_error prev i = Some c ->
    exists c', nth_error next i = Some c' /\
      (courseId c <> cid -> c' = c) /\
      (courseId c = cid ->
         progress c' = newProgress /\ status c' = newStatus /\
         started_at c' = startedAt /\ completed_at c' = completedAt) /\
      id c' = id c /\ user c' = user c /\ bookmarked c' = bookmarked c /\
      enrolled_at c' = enrolled_at c /\ course c' = course c /\
      courseId c' = courseId c /\ title c' = title c /\
      thumbnail c' = thumbnail c /\ description c' = description c /\
      resources c' = resources c /\ modules c' = modules c /\
      instructors c' = instructors c.
Proof.
  intros next. split; [apply update_length|].
  intros i c H. eexists. split; [apply update_nth, H|].
  destruct (Z.eqb_spec (courseId c) cid) as [E | E].
  - split; [intros E'; contradiction|]. simpl. repeat split.
  - split; [reflexivity|]. split; [intros E'; contradiction|]. repeat split.
Qed.

Lemma handleCourseProgressUpdate_frame_witness :
  exists c',
    nth_error (handleCourseProgressUpdate 6 75 "in_progress"
                 (Some "2024-02-02T09:00:00.000Z") None
                 [Sample.algebra; Sample.geometry]) 0 = Some c' /\
    c' = Sample.algebra.
Proof.
  destruct (proj2 (handleCourseProgressUpdate_frame 6 75 "in_progress"
                     (Some "2024-02-02T09:00:00.000Z") None
                     [Sample.algebra; Sample.geometry])
                  0%nat Sample.algebra eq_refl)
    as (c' & Hn & Hother & _).
  exists c'. split; [exact Hn|]. apply Hother. vm_compute. discriminate.
Defined.

(* ================================================================== *)
(** * One execution of [handleLessonComplete]                          *)
(* ================================================================== *)

Section Completion.

Variables (b : Backend) (course : Course) (userId : option Z)
          (now : string) (lesson : SelectedLesson).

Let req1 := CompleteLesson userId (lesson_id (sel_lesson lesson)).
Let req2 := GetCourseProgress userId (courseId course).

Lemma is100_spec (p : Q) : is100 p = true <-> (p == 100)%Q.
Proof. apply Qeq_bool_iff. Qed.

Lemma positive_spec (p : Q) : positive p = true <-> (0 < p)%Q.
Proof.
  unfold positive. rewrite negb_true_iff. split.
  - intros H. apply Qnot_le_lt. intros Hle.
    apply Qle_bool_iff in Hle. congruence.
  - intros H. destruct (Qle_bool p 0) eqn:E; [|reflexivity].
    apply Qle_bool_iff in E. exfalso. now apply (Qlt_not_le 0 p).
Qed.

(** The three ways an execution can go. *)
Lemma completeLesson_cases (app : App) :
  (exists e,
      completeLesson b course userId now lesson app =
      ([Issued req1; Settled req1 (Rejected e)], console_error e app)) \/
  (exists d e,
      completeLesson b course userId now lesson app =
      ([Issued req1; Settled req1 (Fulfilled d);
        Issued req2; Settled req2 (Rejected e)], console_error e app)) \/
  (exists d p st sa ca,
      completeLesson b course userId now lesson app =
      ([Issued req1; Settled req1 (Fulfilled d);
        Issued req2; Settled req2 (Fulfilled p)],
       mkApp (handleCourseProgressUpdate (courseId course) p st sa ca
                (filteredCourses app))
             p (console app)) /\
      update_rule course now p st sa ca).
Proof.
  unfold completeLesson, handleLessonComplete. simpl.
  fold req1 req2.
  destruct (b [Issued req1] req1) as [d | e] eqn:E1; simpl.
  2:{ left. now exists e. }
  destruct (b [Issued req1; Settled req1 (Fulfilled d); Issued req2] req2)
    as [p | e] eqn:E2; simpl.
  2:{ right; left. now exists d, e. }
  right; right. exists d, p.
  destruct (is100 p) eqn:H100.
  - exists "completed", (started_at course), (Some now).
    split; [reflexivity|]. apply is100_spec in H100.
    repeat split; intros; try contradiction; reflexivity.
  - assert (Hn : ~ (p == 100)%Q) by (rewrite <- is100_spec; congruence).
    destruct (positive p && negb (JS.truthy (started_at course))) eqn:Hpos.
    + exists "in_progress", (Some now), (completed_at course).
      split; [reflexivity|].
      apply andb_true_iff in Hpos. destruct Hpos as [Hp Hs].
      apply positive_spec in Hp. apply negb_true_iff in Hs.
      repeat split; intros; try contradiction; try reflexivity.
      all: exfalso; match goal with H : ~ (_ /\ _) |- _ => apply H end; now split.
    + exists (status course), (started_at course), (completed_at course).
      split; [reflexivity|].
      repeat split; intros; try contradiction; try reflexivity.
      all: exfalso;
        match goal with
        | Hp : (0 < _)%Q, Hs : JS.truthy _ = false |- _ =>
            apply positive_spec in Hp; rewrite Hp, Hs in Hpos; discriminate
        end.
Qed.

End Completion.

(** A fulfilled progress request: what the state is afterwards. *)
Lemma completeLesson_fulfilled
    (b : Backend) (course : Course) (userId : option Z) (now : string)
    (lesson : SelectedLesson) (app : App) (p : Q) :
  In (Settled (GetCourseProgress userId (courseId course)) (Fulfilled p))
     (fst (completeLesson b course userId now lesson app)) ->
  let app' := snd (completeLesson b course userId now lesson app) in
  courseProgress app' = p /\
  console app' = console app /\
  exists st sa ca,
    update_rule course now p st sa ca /\
    filteredCourses app' =
      handleCourseProgressUpdate (courseId course) p st sa ca (filteredCourses app) /\
    Forall (fun c' => courseId c' = courseId course ->
                      progress c' = p /\ status c' = st /\
                      started_at c' = sa /\ completed_at c' = ca)
           (filteredCourses app').
Proof.
  intros Hin app'. subst app'.
  pose proof (completeLesson_cases b course userId now lesson app) as H.
  cbv zeta in H.
  destruct H as [(e & H) | [(d & e & H) | (d & p' & st & sa & ca & H & Hrule)]];
    rewrite H in *; simpl in Hin |- *.
  - destruct Hin as [Hin | [Hin | []]]; discriminate Hin.
  - destruct Hin as [Hin | [Hin | [Hin | [Hin | []]]]]; discriminate Hin.
  - destruct Hin as [Hin | [Hin | [Hin | [Hin | []]]]]; try discriminate Hin.
    injection Hin as ->.
    split; [reflexivity|]. split; [reflexivity|].
    exists st, sa, ca. split; [exact Hrule|]. split; [reflexivity|].
    apply update_matching.
Qed.

(** C2, on the code.  The handler takes the previous status and
    timestamps from the course object the dialog was rendered with, not
    from the record of the list it updates.  When that object has no
    start timestamp, a fulfilled completion with a percentage above 0
    writes into every record of the course the start timestamp [now]
    below 100 percent, and no start timestamp at 100 percent, whatever
    start timestamp the record had: a start timestamp written by an
    earlier completion in the same dialog is not kept. *)
Theorem completeLesson_ignores_record_start
    (b : Backend) (course : Course) (userId : option Z) (now : string)
    (lesson : SelectedLesson) (app : App) (p : Q) :
  In (Settled (GetCourseProgress userId (courseId course)) (Fulfilled p))
     (fst (completeLesson b course userId now lesson app)) ->
  JS.truthy (started_at course) = false ->
  (0 < p)%Q ->
  Forall (fun c' => courseId c' = courseId course ->
                    started_at c' =
                    if is100 p then started_at course else Some now)
         (filteredCourses (snd (completeLesson b course userId now lesson app))).
Proof.
  intros Hin Hs Hp.
  destruct (completeLesson_fulfilled b course userId now lesson app p Hin)
    as (_ & _ & st & sa & ca & (R100 & Rpos & _) & _ & Hall).
  eapply Forall_impl; [|exact Hall]. cbv beta.
  intros c' H Hc. destruct (H Hc) as (_ & _ & -> & _).
  destruct (is100 p) eqn:E.
  - apply is100_spec in E. now destruct (R100 E) as (_ & _ & ->).
  - assert (Hn : ~ (p == 100)%Q) by (rewrite <- is100_spec; congruence).
    now destruct (Rpos Hn Hp Hs) as (_ & -> & _).
Qed.

(** The dialog was opened on a course that was not started.  A first
    completion, answered with 40 percent, has started the course at nine
    o'clock; a second one in the same dialog, answered with 100 percent
    at ten, leaves the record completed and without a start timestamp. *)
Lemma completeLesson_ignores_record_start_witness :
  map started_at
    (filteredCourses
       (snd (completeLesson (Sample.reports 40) Sample.algebra (Some 3%Z)
               "2024-05-01T09:00:00.000Z" Sample.selected Sample.app)))
  = [Some "2024-05-01T09:00:00.000Z"; Some "2024-02-02T09:00:00.000Z"] /\
  Forall (fun c' => courseId c' = courseId Sample.algebra -> started_at c' = None)
    (filteredCourses
       (snd (completeLesson (Sample.reports 100) Sample.algebra (Some 3%Z)
               "2024-05-01T10:00:00.000Z" Sample.selectedSlides
               (snd (completeLesson (Sample.reports 40) Sample.algebra (Some 3%Z)
                       "2024-05-01T09:00:00.000Z" Sample.selected Sample.app))))).
Proof.
  split; [reflexivity|].
  refine (completeLesson_ignores_record_start (Sample.reports 100) Sample.algebra
            (Some 3%Z) "2024-05-01T10:00:00.000Z" Sample.selectedSlides
            (snd (completeLesson (Sample.reports 40) Sample.algebra (Some 3%Z)
                    "2024-05-01T09:00:00.000Z" Sample.selected Sample.app))
            100 _ eq_refl eq_refl).
  vm_compute. right; right; right; left. reflexivity.
Defined.

(** C5. When a backend call of an execution of [handleLessonComplete]
    is rejected, the error is caught and logged once and nothing else
    changes: the course list, with the progress, status and timestamps
    of every course, and the progress kept by the dialog are what they
    were; the rejected request is the last one issued, nothing is
    retried. *)
Theorem completeLesson_failure_changes_nothing
    (b : Backend) (course : Course) (userId : option Z) (now : string)
    (lesson : SelectedLesson) (app : App) :
  (exists r e,
      In (Settled r (Rejected e))
         (fst (completeLesson b course userId now lesson app))) ->
  let tr := fst (completeLesson b course userId now lesson app) in
  let app' := snd (completeLesson b course userId now lesson app) in
  let req1 := CompleteLesson userId (lesson_id (sel_lesson lesson)) in
  let req2 := GetCourseProgress userId (courseId course) in
  filteredCourses app' = filteredCourses app /\
  courseProgress app' = courseProgress app /\
  exists e,
    console app' = e :: console app /\
    (tr = [Issued req1; Settled req1 (Rejected e)] \/
     exists d, tr = [Issued req1; Settled req1 (Fulfilled d);
                     Issued req2; Settled req2 (Rejected e)]).
Proof.
  intros (r & e0 & Hin) tr app' req1 req2. subst tr app'.
  pose proof (completeLesson_cases b course userId now lesson app) as H.
  cbv zeta in H. fold req1 req2 in H.
  destruct H as [(e & H) | [(d & e & H) | (d & p' & st & sa & ca & H & Hrule)]];
    rewrite H in *; simpl in Hin |- *.
  - split; [reflexivity|]. split; [reflexivity|].
    exists e. split; [reflexivity|]. now left.
  - split; [reflexivity|]. split; [reflexivity|].
    exists e. split; [reflexivity|]. right. now exists d.
  - destruct Hin as [Hin | [Hin | [Hin | [Hin | []]]]]; discriminate Hin.
Qed.

Lemma completeLesson_failure_changes_nothing_witness :
  filteredCourses
    (snd (completeLesson Sample.failsProgress Sample.geometry (Some 3%Z)
            "2024-05-01T12:00:00.000Z" Sample.selected Sample.app))
  = filteredCourses Sample.app.
Proof.
  refine (proj1 (completeLesson_failure_changes_nothing Sample.failsProgress
                   Sample.geometry (Some 3%Z) "2024-05-01T12:00:00.000Z"
                   Sample.selected Sample.app _)).
  exists (GetCourseProgress (Some 3%Z) 6), "Network Error".
  vm_compute. right; right; right; left. reflexivity.
Defined.

(** C7. In every execution of [handleLessonComplete] the progress
    request is issued only after the completion request has been
    fulfilled, the completion request is issued before it, and at no
    point of the execution is more than one request in flight. *)
Theorem completeLesson_calls_are_sequential
    (b : Backend) (course : Course) (userId : option Z) (now : string)
    (lesson : SelectedLesson) (app : App) :
  let tr := fst (completeLesson b course userId now lesson app) in
  (forall i e, nth_error tr i = Some e -> is_progress_issue e ->
     exists j c, (j < i)%nat /\ nth_error tr j = Some c /\ is_completion c) /\
  (forall i j u l u' c,
     nth_error tr i = Some (Issued (CompleteLesson u l)) ->
     nth_error tr j = Some (Issued (GetCourseProgress u' c)) ->
     (i < j)%nat) /\
  (forall i, (0 <= in_flight (firstn i tr) <= 1)%Z).
Proof.
  intros tr. subst tr.
  pose proof (completeLesson_cases b course userId now lesson app) as H.
  cbv zeta in H.
  destruct H as [(e & H) | [(d & e & H) | (d & p' & st & sa & ca & H & Hrule)]];
    rewrite H; simpl fst; clear H.
  - split; [|split].
    + intros [|[|[|i]]] ev Hn (u & c & ->); simpl in Hn; discriminate Hn.
    + intros [|[|[|i]]] [|[|[|j]]] u l u' c Hi Hj;
        simpl in Hi, Hj; try discriminate Hi; try discriminate Hj.
    + intros [|[|[|i]]]; simpl; lia.
  - split; [|split].
    + intros [|[|[|[|[|i]]]]] ev Hn (u & c & ->); simpl in Hn;
        try discriminate Hn.
      exists 1%nat, (Settled (CompleteLesson userId (lesson_id (sel_lesson lesson)))
                             (Fulfilled d)).
      split; [lia|]. split; [reflexivity|].
      now exists userId, (lesson_id (sel_lesson lesson)), d.
    + intros [|[|[|[|[|i]]]]] [|[|[|[|[|j]]]]] u l u' c Hi Hj;
        simpl in Hi, Hj; try discriminate Hi; try discriminate Hj; lia.
    + intros [|[|[|[|[|i]]]]]; simpl; lia.
  - split; [|split].
    + intros [|[|[|[|[|i]]]]] ev Hn (u & c & ->); simpl in Hn;
        try discriminate Hn.
      exists 1%nat, (Settled (CompleteLesson userId (lesson_id (sel_lesson lesson)))
                             (Fulfilled d)).
      split; [lia|]. split; [reflexivity|].
      now exists userId, (lesson_id (sel_lesson lesson)), d.
    + intros [|[|[|[|[|i]]]]] [|[|[|[|[|j]]]]] u l u' c Hi Hj;
        simpl in Hi, Hj; try discriminate Hi; try discriminate Hj; lia.
    + intros [|[|[|[|[|i]]]]]; simpl; lia.
Qed.

Lemma completeLesson_calls_are_sequential_witness :
  exists j c,
    (j < 2)%nat /\
    nth_error (fst (completeLesson (Sample.reports 50) Sample.geometry (Some 3%Z)
                      "2024-05-01T12:00:00.000Z" Sample.selected Sample.app)) j
    = Some c /\
    is_completion c.
Proof.
  refine (proj1 (completeLesson_calls_are_sequential (Sample.reports 50)
                   Sample.geometry (Some 3%Z) "2024-05-01T12:00:00.000Z"
                   Sample.selected Sample.app)
                2%nat (Issued (GetCourseProgress (Some 3%Z) 6)) eq_refl _).
  exists (Some 3%Z), 6%Z. reflexivity.
Defined.

(* ================================================================== *)
(** * The status derived by the list transform                         *)
(* ================================================================== *)

Section Transform.

Variable API_BASE_URL : string.

Lemma derivedStatus_spec (ca : option string) (p : Q) :
  (JS.truthy ca = true -> derivedStatus ca p = "completed") /\
  (JS.truthy ca = false -> (0 < p)%Q -> derivedStatus ca p = "in_progress") /\
  (JS.truthy ca = false -> ~ (0 < p)%Q -> derivedStatus ca p = "not_started").
Proof.
  unfold derivedStatus. repeat split.
  - now intros ->.
  - intros -> Hp. apply positive_spec in Hp. now rewrite Hp.
  - intros -> Hp. rewrite <- positive_spec in Hp.
    apply not_true_is_false in Hp. now rewrite Hp.
Qed.

Lemma transformCourse_fields (e : Enrollment) (c : Course) :
  transformCourse API_BASE_URL e = Value (Some c) ->
  completed_at c = enr_completed_at e /\
  progress c = enr_progress e /\
  status c = derivedStatus (enr_completed_at e) (enr_progress e).
Proof.
  unfold transformCourse.
  destruct (enr_course e) as [ic|]; [|discriminate].
  destruct (ic_thumbnail ic) as [th|]; [|discriminate].
  intros [= <-]. repeat split.
Qed.

Lemma transformCourse_derived (e : Enrollment) (c : Course) :
  transformCourse API_BASE_URL e = Value (Some c) -> status_derived c.
Proof.
  intros H. destruct (transformCourse_fields e c H) as (Hc & Hp & Hs).
  unfold status_derived. rewrite Hc, Hp, Hs. apply derivedStatus_spec.
Qed.

Lemma transformCourses_derived (cs : list Enrollment) (l : list Course) :
  transformCourses API_BASE_URL cs = Value l -> Forall status_derived l.
Proof.
  revert l; induction cs as [|e cs IH]; intros l; simpl.
  - intros [= <-]. constructor.
  - destruct (transformCourse API_BASE_URL e) as [oc|] eqn:E; [|discriminate].
    destruct (transformCourses API_BASE_URL cs) as [l'|]; [|discriminate].
    intros [= <-]. specialize (IH l' eq_refl).
    destruct oc as [c|]; [|exact IH].
    constructor; [|exact IH]. now apply (transformCourse_derived e).
Qed.

Lemma filterByIndex_incl (bookmarks : list bool) (l : list Course) (c : Course) :
  In c (filterByIndex bookmarks l) -> In c l.
Proof.
  revert bookmarks; induction l as [|x l IH]; intros bs; simpl; [easy|].
  destruct bs as [|[|] bs]; simpl; [easy| |].
  - intros [-> | H]; [now left | right; eapply IH; eauto].
  - intros H. right. eapply IH; eauto.
Qed.

(** The filters of the second effect only drop records. *)
Lemma applyFilters_incl (f : Filters) (bookmarks : list bool)
      (l : list Course) (c : Course) :
  In c (applyFilters f bookmarks l) -> In c l.
Proof.
  unfold applyFilters. intros H.
  assert (H1 : In c (if negb (f_status f =? "all")
                     then filter (fun c => status c =? f_status f)
                            (if JS.str_truthy (f_search f)
                             then filter (courseMatches (JS.toLowerCase (f_search f))) l
                             else l)
                     else (if JS.str_truthy (f_search f)
                           then filter (courseMatches (JS.toLowerCase (f_search f))) l
                           else l))).
  { destruct (f_view f =? "bookmarked"); [|exact H].
    eapply filterByIndex_incl; eauto. }
  assert (H2 : In c (if JS.str_truthy (f_search f)
                     then filter (courseMatches (JS.toLowerCase (f_search f))) l
                     else l)).
  { destruct (negb _); [|exact H1]. now apply filter_In in H1. }
  destruct (JS.str_truthy _); [|exact H2]. now apply filter_In in H2.
Qed.

End Transform.

(** C6. Every record the list transform produces has the derived
    status: [completed] when its completion timestamp is set, else
    [in_progress] when its progress is above 0, else [not_started]; with
    a completion timestamp the status is [completed] whatever the
    progress.  The transform keeps the completion timestamp and the
    progress of the enrolment record, and the filters of the second
    effect only drop records. *)
Theorem transform_derives_status (API_BASE_URL : string) :
  (forall e c, transformCourse API_BASE_URL e = Value (Some c) ->
     status_derived c /\
     completed_at c = enr_completed_at e /\ progress c = enr_progress e /\
     (JS.truthy (enr_completed_at e) = true -> status c = "completed")) /\
  (forall cs l, transformCourses API_BASE_URL cs = Value l ->
     Forall status_derived l /\
     forall f bookmarks, Forall status_derived (applyFilters f bookmarks l)).
Proof.
  split.
  - intros e c H.
    pose proof (transformCourse_derived API_BASE_URL e c H) as Hd.
    destruct (transformCourse_fields API_BASE_URL e c H) as (Hc & Hp & Hs).
    repeat split; try assumption; try apply Hd.
    intros Ht. apply Hd. now rewrite Hc.
  - intros cs l H.
    pose proof (transformCourses_derived API_BASE_URL cs l H) as Hl.
    split; [exact Hl|]. intros f bm. apply Forall_forall. intros c Hc.
    apply applyFilters_incl in Hc. revert c Hc. now apply Forall_forall.
Qed.

Lemma transform_derives_status_witness :
  exists c,
    transformCourse "https://api.example.org" Sample.enrolment = Value (Some c) /\
    status c = "completed" /\ progress c = 30.
Proof.
  eexists. split; [reflexivity|].
  destruct (proj1 (transform_derives_status "https://api.example.org")
                  Sample.enrolment _ eq_refl) as (_ & _ & Hp & Hs).
  split; [apply Hs; reflexivity | exact Hp].
Defined.

(* ================================================================== *)
(** * The media player                                                 *)
(* ================================================================== *)

Section MediaPlayer.

Lemma handleTimeUpdate_calls (p : Player) :
  onEnded_calls (handleTimeUpdate p) = onEnded_calls p.
Proof. unfold handleTimeUpdate. destruct (_ && _); reflexivity. Qed.

(** A position report never invokes the [onEnded] prop. *)
Lemma timeupdate_never_calls (provided : bool) (p : Player) (t : Q) :
  onEnded_calls (player_step provided p (TimeUpdate t)) = onEnded_calls p.
Proof. simpl. now rewrite handleTimeUpdate_calls. Qed.

(** Only the [ended] event of the element invokes it. *)
Lemma only_ended_calls (p : Player) (e : PlayerEvent) :
  onEnded_calls (player_step true p e) <> onEnded_calls p -> e = Ended.
Proof.
  destruct e as [d| |t| |i| |]; simpl; intros H;
    try reflexivity; exfalso; apply H; try reflexivity.
  - now rewrite handleTimeUpdate_calls.
  - destruct (nth_error playbackRates i); reflexivity.
  - destruct (completed p); reflexivity.
Qed.

End MediaPlayer.

(** C3, on the code. A ten-second video that reports the position 9.5
    turns [completed] (the overlay reads "Lesson Completed") and the
    [onEnded] prop has not been invoked; replaying from the overlay then
    leaves the lesson without any completion call.  Only the [ended]
    event of the element invokes the prop, a position report never
    does. *)
Theorem native_video_completes_without_callback :
  let near_end := play_session true [LoadedMetadata 10; PlayPause; TimeUpdate 9.5] in
  let replayed :=
    play_session true [LoadedMetadata 10; PlayPause; TimeUpdate 9.5; Replay] in
  completed (play_session true [LoadedMetadata 10; PlayPause; TimeUpdate 8.9]) = false /\
  completed near_end = true /\ onEnded_calls near_end = 0%nat /\
  completed replayed = false /\ onEnded_calls replayed = 0%nat /\
  (forall provided p t,
     onEnded_calls (player_step provided p (TimeUpdate t)) = onEnded_calls p) /\
  onEnded_calls
    (play_session true [LoadedMetadata 10; PlayPause; TimeUpdate 9.5; Ended]) = 1%nat.
Proof.
  repeat split; try reflexivity.
  intros. apply timeupdate_never_calls.
Qed.

(** C8 as stated fails: 1.2 is not among the rates of the select. *)
Lemma rate_1_2_not_offered : ~ offered 1.2.
Proof.
  intros (i & r & Hn & Hr).
  destruct i as [|[|[|[|[|[|i]]]]]]; simpl in Hn;
    try (injection Hn as <-; vm_compute in Hr; discriminate Hr).
  destruct i; discriminate Hn.
Qed.

(** C8, as amended. The playback-rate select of the native video
    controls offers the rates 0.5, 0.75, 1, 1.25, 1.5 and 2 and no
    other, and choosing an option sets the playback rate to it. *)
Theorem playback_rates_offered :
  (forall r, offered r <->
     (r == 0.5 \/ r == 0.75 \/ r == 1 \/ r == 1.25 \/ r == 1.5 \/ r == 2)%Q) /\
  (forall provided p i,
     playbackRate (player_step provided p (SelectRate i)) = playbackRate p \/
     offered (playbackRate (player_step provided p (SelectRate i)))).
Proof.
  split.
  - intros r. split.
    + intros (i & r' & Hn & Hr).
      destruct i as [|[|[|[|[|[|i]]]]]]; simpl in Hn;
        try (injection Hn as <-; symmetry in Hr; tauto).
      destruct i; discriminate Hn.
    + intros [H | [H | [H | [H | [H | H]]]]].
      * exists 0%nat, 0.5%Q. split; [reflexivity | now symmetry].
      * exists 1%nat, 0.75%Q. split; [reflexivity | now symmetry].
      * exists 2%nat, 1%Q. split; [reflexivity | now symmetry].
      * exists 3%nat, 1.25%Q. split; [reflexivity | now symmetry].
      * exists 4%nat, 1.5%Q. split; [reflexivity | now symmetry].
      * exists 5%nat, 2%Q. split; [reflexivity | now symmetry].
  - intros provided p i. simpl.
    destruct (nth_error playbackRates i) as [rate|] eqn:E; [|now left].
    right. simpl. exists i, rate. split; [exact E | reflexivity].
Qed.

Lemma playback_rates_offered_witness : offered 1.5.
Proof.
  apply (proj2 (proj1 playback_rates_offered 1.5%Q)).
  right; right; right; right; left. reflexivity.
Defined.

(* ================================================================== *)
(** * Two completions in one dialog                                    *)
(* ================================================================== *)

(** The dialog keeps the course object it was opened with: the update
    goes to the list of the parent, not to that object.  A second
    completion in the same dialog therefore reads the status and the
    timestamps the course had when the dialog was opened.  Here the
    first completion starts the course at nine o'clock, and the second
    one, finding no start timestamp in the object of the dialog, starts
    it again at ten. *)
Remark second_completion_reads_dialog_record :
  let cid := courseId Sample.algebra in
  let app1 := snd (completeLesson (Sample.reports 40) Sample.algebra (Some 3%Z)
                     "2024-05-01T09:00:00.000Z" Sample.selected Sample.app) in
  let app2 := snd (completeLesson (Sample.reports 70) Sample.algebra (Some 3%Z)
                     "2024-05-01T10:00:00.000Z" Sample.selectedSlides app1) in
  map started_at (filter (fun c => (courseId c =? cid)%Z) (filteredCourses app1))
    = [Some "2024-05-01T09:00:00.000Z"] /\
  map started_at (filter (fun c => (courseId c =? cid)%Z) (filteredCourses app2))
    = [Some "2024-05-01T10:00:00.000Z"].
Proof. split; reflexivity. Qed.

(* ================================================================== *)
(** * Further properties of the progress update                        *)
(* ================================================================== *)

Section UpdateAlgebra.

Lemma update_courseId (cid : Z) (p : Q) (st : string) (sa ca : option string)
      (l : list Course) :
  map courseId (handleCourseProgressUpdate cid p st sa ca l) = map courseId l.
Proof.
  unfold handleCourseProgressUpdate. rewrite map_map. apply map_ext.
  intros c. destruct (courseId c =? cid)%Z; reflexivity.
Qed.

Lemma update_last_wins
      (cid : Z) (p1 p2 : Q) (st1 st2 : string) (sa1 sa2 ca1 ca2 : option string)
      (l : list Course) :
  handleCourseProgressUpdate cid p2 st2 sa2 ca2
    (handleCourseProgressUpdate cid p1 st1 sa1 ca1 l)
  = handleCourseProgressUpdate cid p2 st2 sa2 ca2 l.
Proof.
  unfold handleCourseProgressUpdate. rewrite map_map. apply map_ext. intros c.
  destruct (courseId c =? cid)%Z eqn:E; simpl; now rewrite E.
Qed.

End UpdateAlgebra.

(** X1. An update for a course that is not in the list changes
    nothing. *)
Theorem update_of_absent_course
    (cid : Z) (p : Q) (st : string) (sa ca : option string) (l : list Course) :
  (forall c, In c l -> courseId c <> cid) ->
  handleCourseProgressUpdate cid p st sa ca l = l.
Proof.
  intros H. unfold handleCourseProgressUpdate.
  rewrite <- (map_id l) at 2. apply map_ext_in.
  intros c Hc. destruct (Z.eqb_spec (courseId c) cid) as [E | E]; [|reflexivity].
  now apply H in Hc.
Qed.

Lemma update_of_absent_course_witness :
  handleCourseProgressUpdate 99 50 "in_progress" None None
    [Sample.algebra; Sample.geometry]
  = [Sample.algebra; Sample.geometry].
Proof.
  apply update_of_absent_course.
  intros c [<- | [<- | []]]; vm_compute; discriminate.
Defined.

(** X2. Of two updates of the same course the later one wins, and
    updates of different courses can be swapped. *)
Theorem updates_compose
    (cid : Z) (p1 p2 : Q) (st1 st2 : string) (sa1 sa2 ca1 ca2 : option string)
    (l : list Course) :
  handleCourseProgressUpdate cid p2 st2 sa2 ca2
    (handleCourseProgressUpdate cid p1 st1 sa1 ca1 l)
  = handleCourseProgressUpdate cid p2 st2 sa2 ca2 l /\
  forall cid', cid' <> cid ->
    handleCourseProgressUpdate cid' p2 st2 sa2 ca2
      (handleCourseProgressUpdate cid p1 st1 sa1 ca1 l)
    = handleCourseProgressUpdate cid p1 st1 sa1 ca1
        (handleCourseProgressUpdate cid' p2 st2 sa2 ca2 l).
Proof.
  split; [apply update_last_wins|].
  unfold handleCourseProgressUpdate.
  - intros cid' Hne. rewrite !map_map. apply map_ext. intros c.
    destruct (courseId c =? cid)%Z eqn:E, (courseId c =? cid')%Z eqn:E';
      simpl; rewrite ?E, ?E'; try reflexivity.
    apply Z.eqb_eq in E, E'. congruence.
Qed.

Lemma updates_compose_witness :
  handleCourseProgressUpdate 5 10 "in_progress" None None
    (handleCourseProgressUpdate 6 100 "completed" None (Some "t") [Sample.algebra; Sample.geometry])
  = handleCourseProgressUpdate 6 100 "completed" None (Some "t")
      (handleCourseProgressUpdate 5 10 "in_progress" None None [Sample.algebra; Sample.geometry]).
Proof.
  apply (proj2 (updates_compose 6 100 10 "completed" "in_progress"
                  None None (Some "t") None [Sample.algebra; Sample.geometry])).
  discriminate.
Defined.

(** X28. When an execution of [handleLessonComplete] has received the
    percentage [p] from the backend, the progress kept by the dialog is
    [p], nothing is logged, and every record of the course in the list
    has [progress = p] and the status and timestamps computed from the
    course object the dialog was rendered with: [p = 100] gives
    [completed] and a completion timestamp of [now]; otherwise [p > 0]
    with no start timestamp in that object gives [in_progress] and a
    start timestamp of [now]; in every other case status and both
    timestamps are those of that object. *)
Theorem completeLesson_updates_course
    (b : Backend) (course : Course) (userId : option Z) (now : string)
    (lesson : SelectedLesson) (app : App) (p : Q) :
  In (Settled (GetCourseProgress userId (courseId course)) (Fulfilled p))
     (fst (completeLesson b course userId now lesson app)) ->
  let app' := snd (completeLesson b course userId now lesson app) in
  courseProgress app' = p /\
  console app' = console app /\
  exists st sa ca,
    update_rule course now p st sa ca /\
    filteredCourses app' =
      handleCourseProgressUpdate (courseId course) p st sa ca (filteredCourses app) /\
    Forall (fun c' => courseId c' = courseId course ->
                      progress c' = p /\ status c' = st /\
                      started_at c' = sa /\ completed_at c' = ca)
           (filteredCourses app').
Proof. apply completeLesson_fulfilled. Qed.

Lemma completeLesson_updates_course_witness :
  courseProgress
    (snd (completeLesson (Sample.reports 100) Sample.geometry (Some 3%Z)
            "2024-05-01T12:00:00.000Z" Sample.selected Sample.app)) = 100.
Proof.
  refine (proj1 (completeLesson_updates_course (Sample.reports 100)
                   Sample.geometry (Some 3%Z) "2024-05-01T12:00:00.000Z"
                   Sample.selected Sample.app 100 _)).
  vm_compute. right; right; right; left. reflexivity.
Defined.

Lemma completeLesson_run
    (b : Backend) (course : Course) (userId : option Z) (now : string)
    (lesson : SelectedLesson) (app : App) :
  completeLesson b course userId now lesson app =
  (fst (run b (handleLessonComplete course userId now lesson) []),
   snd (run b (handleLessonComplete course userId now lesson) []) app).
Proof. unfold completeLesson. destruct (run _ _ _). reflexivity. Qed.

(** X3. Two completions of one dialog, of the same lesson or of two
    lessons, each issue their requests on their own and may overlap;
    each updates the state when its progress request has settled.  If
    the completion whose update comes last was answered with the
    percentage [p2], the dialog progress ends at [p2] and the course list
    ends as that completion alone would have left it, whether the
    other one succeeded or failed: nothing the other wrote to the list
    survives. *)
Theorem two_completions
    (b1 b2 : Backend) (course : Course) (userId : option Z) (now1 now2 : string)
    (lesson1 lesson2 : SelectedLesson) (app : App) (p2 : Q) :
  let r1 := run b1 (handleLessonComplete course userId now1 lesson1) [] in
  let r2 := run b2 (handleLessonComplete course userId now2 lesson2) [] in
  In (Settled (GetCourseProgress userId (courseId course)) (Fulfilled p2)) (fst r2) ->
  courseProgress (snd r2 (snd r1 app)) = p2 /\
  filteredCourses (snd r2 (snd r1 app)) = filteredCourses (snd r2 app).
Proof.
  intros r1 r2 H2.
  assert (E1 : exists app1,
             snd r1 app = app1 /\
             (filteredCourses app1 = filteredCourses app \/
              exists p st sa ca,
                filteredCourses app1 =
                handleCourseProgressUpdate (courseId course) p st sa ca
                  (filteredCourses app))).
  { exists (snd r1 app). split; [reflexivity|].
    pose proof (completeLesson_cases b1 course userId now1 lesson1 app) as C1.
    cbv zeta in C1. rewrite completeLesson_run in C1. fold r1 in C1.
    destruct C1 as [(e & C1) | [(d & e & C1) | (d & q & st & sa & ca & C1 & _)]];
      injection C1 as _ ->.
    - now left.
    - now left.
    - right. now exists q, st, sa, ca. }
  destruct E1 as (app1 & -> & Hl).
  assert (G : forall a,
             courseProgress (snd r2 a) = p2 /\
             exists st sa ca,
               forall a', filteredCourses (snd r2 a') =
                 handleCourseProgressUpdate (courseId course) p2 st sa ca
                   (filteredCourses a')).
  { intros a. subst r2.
    unfold handleLessonComplete in H2 |- *. simpl in H2 |- *.
    destruct (b2 _ (CompleteLesson _ _)) as [d2 | e2]; simpl in H2 |- *.
    2:{ destruct H2 as [H2 | [H2 | []]]; discriminate H2. }
    destruct (b2 _ (GetCourseProgress _ _)) as [q2 | e2]; simpl in H2 |- *.
    2:{ destruct H2 as [H2 | [H2 | [H2 | [H2 | []]]]]; discriminate H2. }
    destruct H2 as [H2 | [H2 | [H2 | [H2 | []]]]]; try discriminate H2.
    injection H2 as ->.
    destruct (is100 p2); [|destruct (positive p2 && _)];
      (split; [reflexivity|]); do 3 eexists; intros a'; reflexivity. }
  destruct (G app1) as (Hp & st & sa & ca & Hf).
  split; [exact Hp|].
  rewrite (Hf app1), (Hf app).
  destruct Hl as [-> | (q & st1 & sa1 & ca1 & ->)]; [reflexivity|].
  apply update_last_wins.
Qed.

Lemma two_completions_witness :
  courseProgress
    (snd (run (Sample.reports 70)
            (handleLessonComplete Sample.algebra (Some 3%Z)
               "2024-05-01T10:00:00.000Z" Sample.selectedSlides) [])
       (snd (run Sample.failsProgress
               (handleLessonComplete Sample.algebra (Some 3%Z)
                  "2024-05-01T09:00:00.000Z" Sample.selected) [])
          Sample.app))
  = 70.
Proof.
  refine (proj1 (two_completions Sample.failsProgress (Sample.reports 70)
            Sample.algebra (Some 3%Z) "2024-05-01T09:00:00.000Z"
            "2024-05-01T10:00:00.000Z" Sample.selected Sample.selectedSlides
            Sample.app 70 _)).
  vm_compute. right; right; right; left. reflexivity.
Defined.

(* ================================================================== *)
(** * Further properties of the module progress                        *)
(* ================================================================== *)

Section ModuleProgressMore.

Local Open Scope Z_scope.

Lemma completedLessons_transform (ls : list Lesson) :
  completedLessons (map transformLesson ls) = completedLessons ls.
Proof.
  unfold completedLessons. induction ls as [|l ls IH]; [reflexivity|].
  simpl. unfold lesson_done at 1. simpl.
  destruct (lesson_done l); simpl; now rewrite IH.
Qed.

End ModuleProgressMore.

(** X4. With the same number of lessons, at most 500, a module with
    at least as many completed lessons shows at least as high a
    percentage. *)
Theorem calculateModuleProgress_monotone (m m' : Module_) (ls ls' : list Lesson) :
  lessons m = Some ls -> lessons m' = Some ls' ->
  List.length ls = List.length ls' ->
  (List.length ls <= 500)%nat ->
  (completedLessons ls <= completedLessons ls')%nat ->
  exists r r' : Z,
    calculateModuleProgress m = Some r /\
    calculateModuleProgress m' = Some r' /\
    (r <= r')%Z.
Proof.
  intros Hm Hm' Hlen Hn Hk.
  destruct (Nat.eq_dec (List.length ls) 0) as [E0|E0].
  - exists 0%Z, 0%Z. repeat split; [| |lia];
      apply calculateModuleProgress_empty; right.
    + rewrite Hm. destruct ls; [reflexivity | discriminate E0].
    + rewrite Hm'. rewrite Hlen in E0. destruct ls'; [reflexivity | discriminate E0].
  - destruct (calculateModuleProgress_nearest m ls Hm ltac:(lia)) as (r & Hr & Hnr).
    destruct (calculateModuleProgress_nearest m' ls' Hm' ltac:(lia)) as (r' & Hr' & Hnr').
    exists r, r'. split; [exact Hr|]. split; [exact Hr'|].
    destruct (Nat.eq_dec (completedLessons ls) (completedLessons ls')) as [Ek|Ek].
    + rewrite (calculateModuleProgress_nonempty m ls Hm) in Hr by lia.
      rewrite (calculateModuleProgress_nonempty m' ls' Hm') in Hr' by lia.
      rewrite Ek, Hlen, Hr' in Hr. injection Hr as ->. lia.
    + rewrite <- Hlen in Hnr'.
      apply (nearest_monotone (Z.of_nat (completedLessons ls))
               (Z.of_nat (completedLessons ls')) (Z.of_nat (List.length ls)));
        [lia | lia | exact Hnr | exact Hnr'].
Qed.

Lemma calculateModuleProgress_monotone_witness :
  exists r r' : Z,
    calculateModuleProgress
      (mkModule 1 (Some "Week 1")
         (Some [mkLesson 1 None None None None None None None (Some true);
                mkLesson 2 None None None None None None None None]))
    = Some r /\
    calculateModuleProgress
      (mkModule 1 (Some "Week 1")
         (Some [mkLesson 1 None None None None None None None (Some true);
                mkLesson 2 None None None None None None None (Some true)]))
    = Some r' /\
    (r <= r')%Z.
Proof.
  eapply calculateModuleProgress_monotone;
    [reflexivity | reflexivity | reflexivity | simpl; lia
    | vm_compute; repeat constructor].
Defined.

(** X5. For a module of fewer than 200 lessons the percentage is 100
    exactly when every lesson is completed, and 0 exactly when none is.
    (With 200 lessons, 199 completed already round to 100.) *)
Theorem calculateModuleProgress_extremes (m : Module_) (ls : list Lesson) :
  lessons m = Some ls ->
  (1 <= List.length ls < 200)%nat ->
  (calculateModuleProgress m = Some 100%Z <-> completedLessons ls = List.length ls) /\
  (calculateModuleProgress m = Some 0%Z <-> completedLessons ls = 0%nat).
Proof.
  intros Hm Hn.
  destruct (calculateModuleProgress_nearest m ls Hm ltac:(lia)) as (r & Hr & Hnr).
  rewrite Hr. unfold nearest in Hnr. apply Z.leb_le in Hnr.
  pose proof (completedLessons_le ls) as Hk.
  set (k := Z.of_nat (completedLessons ls)) in *.
  set (n := Z.of_nat (List.length ls)) in *.
  assert (Hn' : (0 < n < 200)%Z) by (unfold n; lia).
  assert (Hk' : (0 <= k <= n)%Z) by (unfold k, n; lia).
  split; split; intros H.
  - injection H as ->. assert (k = n) by nia. unfold k, n in *. lia.
  - assert (E : k = n) by (unfold k, n; lia). f_equal. nia.
  - injection H as ->. assert (k = 0%Z) by nia. unfold k in *. lia.
  - assert (E : k = 0%Z) by (unfold k; lia). f_equal. nia.
Qed.

Lemma calculateModuleProgress_extremes_witness :
  calculateModuleProgress
    (mkModule 1 (Some "Week 1")
       (Some [mkLesson 1 None None None None None None None (Some true);
              mkLesson 2 None None None None None None None (Some true)]))
  = Some 100%Z.
Proof.
  refine (proj2 (proj1 (calculateModuleProgress_extremes
    (mkModule 1 (Some "Week 1")
       (Some [mkLesson 1 None None None None None None None (Some true);
              mkLesson 2 None None None None None None None (Some true)]))
    [mkLesson 1 None None None None None None None (Some true);
     mkLesson 2 None None None None None None None (Some true)]
    eq_refl _)) eq_refl).
  simpl. lia.
Defined.

(** X6. The list transform normalises a module without changing what
    the sidebar computes for it: the percentage of the transformed
    module is that of the module as the backend sent it, whether its
    lessons were absent or their completion flags missing, and
    transforming twice is transforming once. *)
Theorem transformModule_keeps_progress (m : Module_) :
  calculateModuleProgress (transformModule m) = calculateModuleProgress m /\
  transformModule (transformModule m) = transformModule m.
Proof.
  split.
  - unfold calculateModuleProgress, transformModule. simpl.
    destruct (lessons m) as [[|l ls]|]; try reflexivity.
    cbn [map]. rewrite <- (map_cons transformLesson l ls).
    rewrite completedLessons_transform, length_map. reflexivity.
  - unfold transformModule. simpl. f_equal. f_equal.
    rewrite map_map. apply map_ext. intros l. reflexivity.
Qed.

(* ================================================================== *)
(** * Further properties of the list transform                         *)
(* ================================================================== *)

(** X7. The first effect throws exactly when some enrolment has a
    course without a thumbnail; otherwise it keeps the enrolments that
    have a course, in their order, and drops the others. *)
Theorem transformCourses_outcome (API_BASE_URL : string) (cs : list Enrollment) :
  (transformCourses API_BASE_URL cs = TypeError <->
   exists e ic, In e cs /\ enr_course e = Some ic /\ ic_thumbnail ic = None) /\
  (forall l, transformCourses API_BASE_URL cs = Value l ->
     map courseId l =
     flat_map (fun e => match enr_course e with
                        | Some ic => [ic_id ic]
                        | None => []
                        end) cs).
Proof.
  induction cs as [|e cs [IH1 IH2]]; simpl.
  - split; [|now intros l [= <-]].
    split; [discriminate | intros (e & ic & [] & _)].
  - unfold transformCourse.
    destruct (enr_course e) as [ic|] eqn:Ec.
    + destruct (ic_thumbnail ic) as [th|] eqn:Et.
      * destruct (transformCourses API_BASE_URL cs) as [l'|] eqn:Er.
        -- split.
           ++ split; [discriminate|].
              intros (e' & ic' & [<- | Hin] & Hc & Ht).
              ** congruence.
              ** assert (X : Value l' = TypeError)
                   by (apply IH1; now exists e', ic').
                 discriminate X.
           ++ intros l [= <-]. simpl. f_equal. now apply IH2.
        -- split; [|discriminate]. split; [|reflexivity].
           intros _. destruct (proj1 IH1 eq_refl) as (e' & ic' & Hin & Hc & Ht).
           exists e', ic'. auto.
      * split; [|discriminate]. split; [|reflexivity].
        intros _. exists e, ic. auto.
    + destruct (transformCourses API_BASE_URL cs) as [l'|] eqn:Er.
      * split.
        -- split; [discriminate|].
           intros (e' & ic' & [<- | Hin] & Hc & Ht).
           ++ congruence.
           ++ assert (X : Value l' = TypeError)
                by (apply IH1; now exists e', ic').
              discriminate X.
        -- intros l [= <-]. now apply IH2.
      * split; [|discriminate]. split; [|reflexivity].
        intros _. destruct (proj1 IH1 eq_refl) as (e' & ic' & Hin & Hc & Ht).
        exists e', ic'. auto.
Qed.

Lemma transformCourses_outcome_witness :
  transformCourses "https://api.example.org"
    [Sample.enrolment;
     mkEnrollment 12 None false None 0 None None None
       (Some (mkInnerCourse 6 None None None None None None))]
  = TypeError.
Proof.
  apply (proj2 (proj1 (transformCourses_outcome "https://api.example.org" _))).
  eexists _, _. split; [right; left; reflexivity|]. split; reflexivity.
Defined.

(* ================================================================== *)
(** * What is rendered after a selection                               *)
(* ================================================================== *)

Section Rendering.

Lemma handleLessonSelect_lesson (l : Lesson) (d : Dialog) :
  selectedLesson (handleLessonSelect l d)
  = Some (mkSelectedLesson l (inferLessonType l)).
Proof.
  unfold handleLessonSelect. cbv zeta.
  destruct (_ || _); [reflexivity|].
  destruct (_ =? "link"); [reflexivity|].
  destruct (_ || _); reflexivity.
Qed.

Lemma lesson_render (l : Lesson) (d : Dialog) :
  let t := inferLessonType l in
  let d' := handleLessonSelect l d in
  showsYouTubePlayer d' = (t =? "youtube") /\
  showsMediaPlayer d' = (t =? "video") /\
  showsDocumentViewer d' = (t =? "pdf") || (t =? "ppt") || (t =? "doc") /\
  completionsOnSelect d' =
    (if (t =? "pdf") || (t =? "ppt") || (t =? "doc") || (t =? "link")
     then 1%nat else 0%nat).
Proof.
  cbv zeta.
  unfold showsYouTubePlayer, showsMediaPlayer, showsDocumentViewer,
    completionsOnSelect, handleLessonSelect.
  cbv zeta. generalize (inferLessonType l). intros t.
  destruct (String.eqb_spec t "video") as [-> | Hv]; [repeat split|].
  destruct (String.eqb_spec t "youtube") as [-> | Hy]; [repeat split|].
  destruct (String.eqb_spec t "link") as [-> | Hl]; [repeat split|].
  destruct (String.eqb_spec t "pdf") as [-> | Hp]; [repeat split|].
  destruct (String.eqb_spec t "ppt") as [-> | Hq]; [repeat split|].
  destruct (String.eqb_spec t "doc") as [-> | Hd]; [repeat split|].
  simpl.
  apply String.eqb_neq in Hv, Hy, Hl, Hp, Hq, Hd.
  rewrite ?Hv, ?Hy, ?Hl, ?Hp, ?Hq, ?Hd. repeat split.
Qed.

Lemma select_keeps_lesson_type (d : Dialog) (e : Selection) (t : string) :
  (forall l, e <> SelectLesson l) ->
  (forall sl, selectedLesson d = Some sl -> detectedType sl = t) ->
  (forall sl, selectedLesson (select d e) = Some sl -> detectedType sl = t).
Proof.
  intros Hne H. destruct e as [l|r| | |]; simpl.
  - now destruct (Hne l).
  - unfold handleResourceSelect. cbv zeta.
    destruct (_ || _); [exact H|]. destruct (opt_is _ _); exact H.
  - exact H.
  - exact H.
  - discriminate.
Qed.

End Rendering.

(** X8. What a lesson selection puts on the screen follows from the
    inferred type alone, whatever was selected before: the YouTube
    player for [youtube], the media player for [video], the document
    viewer for [pdf], [ppt] and [doc]; and the effect keyed on the
    selected lesson calls [handleLessonComplete] once for [pdf], [ppt],
    [doc] and [link] and not at all for any other type. *)
Theorem lesson_selection_renders (l : Lesson) (d : Dialog) :
  let t := inferLessonType l in
  let d' := handleLessonSelect l d in
  showsYouTubePlayer d' = (t =? "youtube") /\
  showsMediaPlayer d' = (t =? "video") /\
  showsDocumentViewer d' = (t =? "pdf") || (t =? "ppt") || (t =? "doc") /\
  completionsOnSelect d' =
    (if (t =? "pdf") || (t =? "ppt") || (t =? "doc") || (t =? "link")
     then 1%nat else 0%nat).
Proof. apply lesson_render. Qed.

(** X9. In every state the dialog can reach at most one of the
    YouTube player, the media player and the document viewer is
    rendered. *)
Theorem one_component_rendered (es : list Selection) :
  let d := selections es in
  (Nat.b2n (showsYouTubePlayer d) + Nat.b2n (showsMediaPlayer d)
   + Nat.b2n (showsDocumentViewer d) <= 1)%nat.
Proof.
  intros d.
  assert (H : at_most_one_viewer d) by (apply fold_select_one; now left).
  unfold showsYouTubePlayer, showsMediaPlayer, showsDocumentViewer.
  destruct (selectedLesson d) as [sl|]; [|simpl; lia].
  destruct H as [-> | ->].
  - destruct (selectedDocument d); simpl; [|lia].
    destruct (negb _ && negb _); simpl; lia.
  - destruct (selectedMedia d) as [m|]; simpl; [|lia].
    destruct (String.eqb_spec (detectedType sl) "youtube") as [-> | Hy]; simpl.
    + destruct (media_type m =? "youtube"); simpl; lia.
    + destruct (_ && _); simpl; lia.
Qed.

(** X10. A lesson whose inferred type is none of [video], [youtube],
    [pdf], [ppt], [doc] and [link] cannot be completed from the dialog:
    selecting it calls [handleLessonComplete] not once, and no player
    whose callback would call it is rendered, neither then nor after any
    selection of resources or closing of viewers that follows. *)
Theorem unplayable_lesson_never_completes
    (l : Lesson) (d : Dialog) (es : list Selection) :
  let t := inferLessonType l in
  t <> "video" -> t <> "youtube" -> t <> "pdf" -> t <> "ppt" -> t <> "doc" ->
  t <> "link" ->
  (forall e l', In e es -> e <> SelectLesson l') ->
  let d' := fold_left select es (handleLessonSelect l d) in
  completionsOnSelect (handleLessonSelect l d) = 0%nat /\
  showsYouTubePlayer d' = false /\ showsMediaPlayer d' = false.
Proof.
  intros t Hv Hy Hp Hq Hd Hl Hes d'.
  split.
  - rewrite (proj2 (proj2 (proj2 (lesson_render l d)))). fold t.
    apply String.eqb_neq in Hp, Hq, Hd, Hl. now rewrite Hp, Hq, Hd, Hl.
  - assert (Ht : forall sl, selectedLesson d' = Some sl -> detectedType sl = t).
    { subst d'. revert Hes.
      assert (H0 : forall sl, selectedLesson (handleLessonSelect l d) = Some sl ->
                              detectedType sl = t).
      { intros sl. rewrite handleLessonSelect_lesson. now intros [= <-]. }
      revert H0. generalize (handleLessonSelect l d).
      induction es as [|e es IH]; intros d0 H0 Hes; simpl; [exact H0|].
      apply IH.
      - apply select_keeps_lesson_type; [|exact H0].
        intros l'. apply (Hes e l'). now left.
      - intros e' l' Hin. apply Hes. now right. }
    unfold showsYouTubePlayer, showsMediaPlayer.
    destruct (selectedLesson d') as [sl|]; [|now split].
    rewrite (Ht sl eq_refl).
    apply String.eqb_neq in Hv, Hy. rewrite Hv, Hy.
    destruct (selectedMedia d'); now split.
Qed.

Lemma unplayable_lesson_never_completes_witness :
  showsMediaPlayer
    (fold_left select
       [SelectResource (mkResource 3 (Some "Clip") (Some "video")
                                   (Some "https://cdn.example.org/clip.mp4")
                                   None None)]
       (handleLessonSelect
          (mkLesson 4 (Some "Reading") None (Some "text") None None None
                    (Some "<p>Read chapter 1</p>") None)
          initialDialog))
  = false.
Proof.
  refine (proj2 (proj2 (unplayable_lesson_never_completes
    (mkLesson 4 (Some "Reading") None (Some "text") None None None
              (Some "<p>Read chapter 1</p>") None)
    initialDialog
    [SelectResource (mkResource 3 (Some "Clip") (Some "video")
                                (Some "https://cdn.example.org/clip.mp4")
                                None None)]
    _ _ _ _ _ _ _))); try (vm_compute; discriminate).
  intros e l' [<- | []]. discriminate.
Defined.

(* ================================================================== *)
(** * The document viewer                                              *)
(* ================================================================== *)

Section Viewer.

Variable encodeURIComponent : string -> string.

Lemma documentEffect_not_loading (o : bool) (doc : option Document) (v : ViewerState) :
  viewer_loading (documentEffect encodeURIComponent o doc v) = false.
Proof.
  unfold documentEffect. destruct doc as [doc|]; [|reflexivity].
  destruct (_ || _); [reflexivity|]. cbv zeta.
  destruct (_ || _); [reflexivity|].
  destruct (_ =? "pdf"); [reflexivity|].
  destruct (isOfficeType _); reflexivity.
Qed.

Lemma documentEffect_idempotent (o : bool) (doc : option Document) (v : ViewerState) :
  documentEffect encodeURIComponent o doc
    (documentEffect encodeURIComponent o doc v)
  = documentEffect encodeURIComponent o doc v.
Proof.
  unfold documentEffect. destruct doc as [doc|]; [|reflexivity].
  destruct (_ || _); [reflexivity|]. cbv zeta.
  destruct (_ || _); [reflexivity|].
  destruct (_ =? "pdf"); [reflexivity|].
  destruct (isOfficeType _); reflexivity.
Qed.

(** A lesson resolved to a document type has a URL that is not a
    YouTube link. *)
Lemma document_lesson_url (l : Lesson) :
  inferLessonType l = "pdf" \/ inferLessonType l = "ppt" \/ inferLessonType l = "doc" ->
  JS.str_truthy (lesson_url l) = true /\
  JS.includes "youtube.com" (lesson_url l) || JS.includes "youtu.be" (lesson_url l)
  = false.
Proof.
  rewrite inferLessonType_unfold. cbv zeta.
  destruct (JS.str_truthy (lesson_url l)); cbn [negb].
  2:{ intros [H | [H | H]]; discriminate H. }
  destruct (_ || _).
  { intros [H | [H | H]]; discriminate H. }
  now split.
Qed.

Lemma or_else_truthy (a b : option string) :
  JS.str_truthy (JS.or_default (JS.or_else a b) "") = true ->
  JS.truthy (JS.or_else a b) = true.
Proof.
  unfold JS.or_default, JS.or_else, JS.truthy.
  destruct a as [[|c s]|]; simpl; destruct b as [[|c' s']|]; simpl; congruence.
Qed.

End Viewer.

(** X11. Once its effect has run the viewer is never in the loading
    state, running the effect again (as its own update of [fileUrl]
    makes React do) changes nothing more, and [renderViewer] never
    reaches its last panel, the "Download File" one: a type the effect
    does not support always ends in the error panel. *)
Theorem documentEffect_settles
    (encodeURIComponent : string -> string)
    (o : bool) (doc : option Document) (v : ViewerState) :
  let v' := documentEffect encodeURIComponent o doc v in
  viewer_loading v' = false /\
  documentEffect encodeURIComponent o doc v' = v' /\
  renderViewer doc v' <> LoadingPanel /\
  forall href, renderViewer doc v' <> DownloadPanel href.
Proof.
  intros v'. subst v'.
  split; [apply documentEffect_not_loading|].
  split; [apply documentEffect_idempotent|].
  unfold renderViewer, documentEffect.
  destruct doc as [doc|]; [|split; [|intros href]; discriminate].
  destruct (doc_url doc) as [[|c u]|]; destruct (doc_type doc) as [[|c' t]|];
    destruct o; cbn -[String.eqb isOfficeType JS.includes];
    try (split; [|intros href]; discriminate).
  destruct (_ || _); cbn -[String.eqb isOfficeType JS.includes];
    [split; [|intros href]; discriminate|].
  destruct (_ =? "pdf") eqn:Ep; cbn -[String.eqb isOfficeType JS.includes].
  { split; [|intros href]; discriminate. }
  destruct (isOfficeType _) eqn:Eo; cbn -[String.eqb isOfficeType JS.includes];
    split; try intros href; discriminate.
Qed.

(** X12. The document a lesson selection hands to the viewer is always
    displayed: the viewer shows its frame, on the URL of the lesson for
    a PDF and on the Office viewer with the encoded URL for [ppt] and
    [doc].  It never gets the error or the invalid-data panel. *)
Theorem lesson_document_is_displayed
    (encodeURIComponent : string -> string)
    (l : Lesson) (d : Dialog) (doc : Document) (v : ViewerState) :
  selectedDocument (handleLessonSelect l d) = Some doc ->
  renderViewer (Some doc)
    (documentEffect encodeURIComponent true (Some doc) v)
  = IframePanel
      (Some (if inferLessonType l =? "pdf" then lesson_url l
             else "https://view.officeapps.live.com/op/embed.aspx?src="
                  ++ encodeURIComponent (lesson_url l))).
Proof.
  unfold handleLessonSelect. cbv zeta.
  destruct (String.eqb_spec (inferLessonType l) "video") as [E | Hv].
  { rewrite E. simpl. discriminate. }
  destruct (String.eqb_spec (inferLessonType l) "youtube") as [E | Hy].
  { rewrite E. simpl. discriminate. }
  destruct (String.eqb_spec (inferLessonType l) "link") as [E | Hl].
  { rewrite E. simpl. discriminate. }
  cbn [orb].
  destruct ((inferLessonType l =? "pdf") || (inferLessonType l =? "ppt")
            || (inferLessonType l =? "doc")) eqn:Et; [|simpl; discriminate].
  simpl. intros [= <-].
  assert (Hdoc : inferLessonType l = "pdf" \/ inferLessonType l = "ppt"
                 \/ inferLessonType l = "doc").
  { rewrite !orb_true_iff, !String.eqb_eq in Et. tauto. }
  destruct (document_lesson_url l Hdoc) as [Hu Hyt].
  unfold renderViewer, documentEffect. cbn [doc_url doc_type].
  fold (lesson_url l).
  assert (Htr : JS.truthy (JS.or_else (content_url l) (content_file l)) = true)
    by now apply or_else_truthy.
  rewrite Htr. rewrite Hyt.
  destruct Hdoc as [E | [E | E]]; rewrite E; reflexivity.
Qed.

Lemma lesson_document_is_displayed_witness :
  renderViewer
    (Some (mkDocument (Some "notes.pdf") "Notes" (Some "pdf")))
    (documentEffect (fun s => s) true
       (Some (mkDocument (Some "notes.pdf") "Notes" (Some "pdf"))) initialViewer)
  = IframePanel (Some "notes.pdf").
Proof.
  exact (lesson_document_is_displayed (fun s => s) Sample.pdfLesson initialDialog
           (mkDocument (Some "notes.pdf") "Notes" (Some "pdf")) initialViewer
           eq_refl).
Defined.

(** X13. What a resource selection puts on the screen depends on the
    lesson that is selected: a video resource is played only under a
    [video] lesson, a YouTube resource only under a [youtube] lesson, and
    a document resource is shown only when the lesson is neither.  In
    every other combination the selection leaves nothing rendered. *)
Theorem resource_selection_renders (r : Resource) (d : Dialog) (sl : SelectedLesson) :
  selectedLesson d = Some sl ->
  opens_link_only r = false ->
  let t := detectedType sl in
  let media := opt_is (resource_type r) "video" || resource_is_youtube r in
  let d' := handleResourceSelect r d in
  showsYouTubePlayer d' = (t =? "youtube") && resource_is_youtube r /\
  showsMediaPlayer d' = (t =? "video") && media && negb (resource_is_youtube r) /\
  showsDocumentViewer d' = negb media && negb (t =? "video") && negb (t =? "youtube").
Proof.
  intros Hsl Hlink t media d'. subst t media d'.
  unfold opens_link_only in Hlink.
  unfold showsYouTubePlayer, showsMediaPlayer, showsDocumentViewer,
    handleResourceSelect. cbv zeta.
  unfold setSelectedDocument, setSelectedMedia, window_open.
  destruct (opt_is (resource_type r) "video" || resource_is_youtube r) eqn:Em;
    cbn [negb andb] in Hlink; cbn -[String.eqb]; rewrite ?Hlink;
    cbn -[String.eqb]; rewrite Hsl.
  - destruct (resource_is_youtube r); cbn -[String.eqb];
      rewrite ?andb_true_r, ?andb_false_r; now split.
  - apply orb_false_iff in Em. destruct Em as [_ ->].
    rewrite ?andb_false_r. now split.
Qed.

Lemma resource_selection_renders_witness :
  showsDocumentViewer
    (handleResourceSelect
       (mkResource 3 (Some "Sheet") (Some "pdf") (Some "sheet.pdf") None None)
       (handleLessonSelect
          (mkLesson 1 None None (Some "video") (Some "lecture.mp4") None None None None)
          initialDialog))
  = false.
Proof.
  refine (proj2 (proj2 (resource_selection_renders
    (mkResource 3 (Some "Sheet") (Some "pdf") (Some "sheet.pdf") None None)
    (handleLessonSelect
       (mkLesson 1 None None (Some "video") (Some "lecture.mp4") None None None None)
       initialDialog)
    _ eq_refl eq_refl))).
Defined.

(* ================================================================== *)
(** * Bookmarks                                                        *)
(* ================================================================== *)

Section BookmarkFacts.

Lemma slot_assign_same (i : nat) (v : option bool) (arr : Bookmarks) :
  slot i (assign i v arr) = v.
Proof.
  unfold slot. revert arr; induction i as [|i IH]; intros [|x arr]; simpl;
    try reflexivity; apply IH.
Qed.

Lemma slot_assign_other (i j : nat) (v : option bool) (arr : Bookmarks) :
  i <> j -> slot j (assign i v arr) = slot j arr.
Proof.
  unfold slot. revert j arr; induction i as [|i IH]; intros [|j] [|x arr] H; simpl;
    try reflexivity; try contradiction.
  - now destruct j.
  - rewrite IH by congruence. now destruct j.
  - apply IH. congruence.
Qed.

Lemma length_assign (i : nat) (v : option bool) (arr : Bookmarks) :
  List.length (assign i v arr) = Nat.max (List.length arr) (S i).
Proof.
  revert arr; induction i as [|i IH]; intros [|x arr]; simpl; try reflexivity.
  - now rewrite Nat.max_comm.
  - rewrite IH. reflexivity.
  - rewrite IH. reflexivity.
Qed.

Lemma assign_assign (i : nat) (v w : option bool) (arr : Bookmarks) :
  assign i w (assign i v arr) = assign i w arr.
Proof.
  revert arr; induction i as [|i IH]; intros [|x arr]; simpl;
    try reflexivity; now rewrite IH.
Qed.

Lemma assign_slot (i : nat) (arr : Bookmarks) :
  (i < List.length arr)%nat -> assign i (slot i arr) arr = arr.
Proof.
  unfold slot. revert arr; induction i as [|i IH]; intros [|x arr] H; simpl in *;
    try lia; [reflexivity|].
  f_equal. apply IH. lia.
Qed.

End BookmarkFacts.

(** X14. Toggling a bookmark flips the slot of that index and no
    other; within the array the length stays, past its end the array
    grows to reach the index.  Toggling the same card twice gives back
    the bookmarks as the list effect initialised them. *)
Theorem toggleBookmark_flips (index : nat) (prev : Bookmarks) :
  slot index (toggleBookmark index prev)
    = Some (negb (slot_truthy (slot index prev))) /\
  (forall j, j <> index -> slot j (toggleBookmark index prev) = slot j prev) /\
  List.length (toggleBookmark index prev) = Nat.max (List.length prev) (S index) /\
  (forall cs, prev = initialBookmarks cs -> (index < List.length cs)%nat ->
     toggleBookmark index (toggleBookmark index prev) = prev).
Proof.
  unfold toggleBookmark. split; [apply slot_assign_same|].
  split; [intros j Hj; apply slot_assign_other; congruence|].
  split; [apply length_assign|].
  intros cs -> Hi.
  rewrite slot_assign_same, assign_assign. cbn [slot_truthy].
  rewrite negb_involutive.
  assert (Hs : slot index (initialBookmarks cs)
               = Some (slot_truthy (slot index (initialBookmarks cs)))).
  { unfold slot, initialBookmarks. rewrite nth_error_map.
    destruct (nth_error cs index) eqn:E; [reflexivity|].
    apply nth_error_None in E. lia. }
  rewrite <- Hs. apply assign_slot.
  unfold initialBookmarks. now rewrite length_map.
Qed.

Lemma toggleBookmark_flips_witness :
  toggleBookmark 0 (toggleBookmark 0 (initialBookmarks [Sample.enrolment]))
  = initialBookmarks [Sample.enrolment].
Proof.
  refine (proj2 (proj2 (proj2 (toggleBookmark_flips 0 _))) [Sample.enrolment] eq_refl _).
  simpl. lia.
Defined.

(* ================================================================== *)
(** * The inline YouTube player                                        *)
(* ================================================================== *)

Section YouTubeFacts.

Variable provided : bool.

Lemma yt_rerun_played (s : YouTubeState) :
  playedSeconds (yt_rerun provided s) = playedSeconds s.
Proof.
  unfold yt_rerun, yt_effect, yt_cleanup. simpl. destruct (_ && _); reflexivity.
Qed.

Lemma yt_rerun_timer (s : YouTubeState) : timer (yt_rerun provided s) = false.
Proof.
  unfold yt_rerun, yt_effect, yt_cleanup. simpl. destruct (_ && _); reflexivity.
Qed.

Lemma yt_rerun_duration (s : YouTubeState) :
  yt_duration (yt_rerun provided s) = yt_duration s.
Proof.
  unfold yt_rerun, yt_effect, yt_cleanup. simpl. destruct (_ && _); reflexivity.
Qed.

Lemma yt_rerun_calls (s : YouTubeState) :
  onComplete_calls (yt_rerun provided s) = onComplete_calls s \/
  (Qle_bool (yt_duration s) (inject_Z (Z.of_nat (playedSeconds s))) = true /\
   positive (yt_duration s) = true).
Proof.
  unfold yt_rerun, yt_effect, yt_cleanup. simpl.
  destruct (Qle_bool _ _); [|now left].
  destruct (positive _); [now right | now left].
Qed.

Lemma session_snoc (es : list YouTubeEvent) (e : YouTubeEvent) :
  youtube_session provided (es ++ [e])
  = youtube_step provided (youtube_session provided es) e.
Proof. unfold youtube_session. now rewrite fold_left_app. Qed.

Lemma plays_snoc (es : list YouTubeEvent) (e : YouTubeEvent) :
  plays (es ++ [e]) = (plays es + Nat.b2n (is_play e))%nat.
Proof.
  unfold plays. rewrite filter_app, length_app. simpl.
  destruct (is_play e); reflexivity.
Qed.

(** The seconds counted, and the one the running interval may still
    add, never exceed the number of times playing started. *)
Lemma played_bound (es : list YouTubeEvent) :
  (playedSeconds (youtube_session provided es)
   + Nat.b2n (timer (youtube_session provided es)) <= plays es)%nat.
Proof.
  induction es as [|e es IH] using rev_ind; [simpl; lia|].
  rewrite session_snoc, plays_snoc.
  set (s := youtube_session provided es) in *.
  destruct e; simpl.
  - destruct (Qeq_bool d (yt_duration s)); [lia|].
    rewrite yt_rerun_played, yt_rerun_timer. simpl.
    destruct (timer s); simpl in IH; lia.
  - destruct (timer s); simpl in IH; lia.
  - destruct (timer s); simpl in IH; lia.
  - destruct (timer s) eqn:Et; simpl in IH |- *.
    + rewrite yt_rerun_played, yt_rerun_timer. simpl. lia.
    + rewrite Et. simpl. lia.
  - rewrite yt_rerun_played, yt_rerun_timer. simpl.
    destruct (timer s); simpl in IH; lia.
Qed.

Lemma duration_reported (es : list YouTubeEvent) :
  yt_duration (youtube_session provided es) = 0 \/
  In (YReady (yt_duration (youtube_session provided es))) es.
Proof.
  induction es as [|e es IH] using rev_ind; [now left|].
  rewrite session_snoc.
  set (s := youtube_session provided es) in *.
  assert (IH' : yt_duration s = 0 \/ In (YReady (yt_duration s)) (es ++ [e])).
  { destruct IH as [IH | IH]; [now left | right; apply in_or_app; now left]. }
  destruct e; simpl.
  - destruct (Qeq_bool d (yt_duration s)); [exact IH'|].
    rewrite yt_rerun_duration. simpl. right. apply in_or_app. right. now left.
  - exact IH'.
  - exact IH'.
  - destruct (timer s); [|exact IH'].
    rewrite yt_rerun_duration. exact IH'.
  - rewrite yt_rerun_duration. exact IH'.
Qed.

End YouTubeFacts.

(** X16. The interval of the YouTube player counts at most one second
    for each time playing starts: the cleanup of the effect keyed on
    [playedSeconds] clears the interval as soon as a tick has changed
    the count.  So the seconds counted never exceed the number of play
    events, and after a tick the interval is gone. *)
Theorem youtube_counts_one_second_per_play
    (provided : bool) (es : list YouTubeEvent) :
  (playedSeconds (youtube_session provided es) <= plays es)%nat /\
  timer (youtube_session provided (es ++ [YTick])) = false.
Proof.
  split.
  - pose proof (played_bound provided es). lia.
  - rewrite session_snoc. simpl.
    destruct (timer (youtube_session provided es)) eqn:Et;
      [apply yt_rerun_timer | exact Et].
Qed.

(** X17. The YouTube player invokes [onComplete] only when a duration
    above 0 has been reported that the number of play events has
    reached: a video of d seconds is not completed with fewer than d
    starts of playing, however long it plays. *)
Theorem youtube_completion_needs_plays
    (provided : bool) (es : list YouTubeEvent) :
  (0 < onComplete_calls (youtube_session provided es))%nat ->
  exists d, In (YReady d) es /\ (0 < d)%Q /\
            (d <= inject_Z (Z.of_nat (plays es)))%Q.
Proof.
  induction es as [|e es IH] using rev_ind; [simpl; lia|].
  rewrite session_snoc, plays_snoc.
  pose proof (played_bound provided es) as Hb.
  pose proof (duration_reported provided es) as Hd.
  set (s := youtube_session provided es) in *.
  assert (Hold : (0 < onComplete_calls s)%nat ->
                 exists d, In (YReady d) (es ++ [e]) /\ (0 < d)%Q /\
                   (d <= inject_Z (Z.of_nat (plays es + Nat.b2n (is_play e))))%Q).
  { intros H. destruct (IH H) as (d & Hin & Hpos & Hle).
    exists d. split; [apply in_or_app; now left|]. split; [exact Hpos|].
    eapply Qle_trans; [exact Hle|]. rewrite <- Zle_Qle. lia. }
  assert (Hfire : forall s',
             (playedSeconds s' <= plays es + Nat.b2n (is_play e))%nat ->
             (yt_duration s' = 0 \/ In (YReady (yt_duration s')) (es ++ [e])) ->
             onComplete_calls s' = onComplete_calls s ->
             (0 < onComplete_calls (yt_rerun provided s'))%nat ->
             exists d, In (YReady d) (es ++ [e]) /\ (0 < d)%Q /\
               (d <= inject_Z (Z.of_nat (plays es + Nat.b2n (is_play e))))%Q).
  { intros s' Hp Hdur Hc Hpos.
    destruct (yt_rerun_calls provided s') as [E | [E1 E2]].
    - apply Hold. lia.
    - apply positive_spec in E2. apply Qle_bool_iff in E1.
      destruct Hdur as [Hz | Hin].
      + rewrite Hz in E2. now apply Qlt_irrefl in E2.
      + exists (yt_duration s'). split; [exact Hin|]. split; [exact E2|].
        eapply Qle_trans; [exact E1|]. rewrite <- Zle_Qle. lia. }
  destruct e; simpl.
  - destruct (Qeq_bool d (yt_duration s)); [exact Hold|].
    apply Hfire; simpl; try lia.
    right. apply in_or_app. right. now left.
  - exact Hold.
  - exact Hold.
  - destruct (timer s) eqn:Et; [|exact Hold].
    apply Hfire; simpl in *; try lia.
    destruct Hd as [Hd | Hd]; [now left | right; apply in_or_app; now left].
  - apply Hfire; simpl; try lia.
    destruct Hd as [Hd | Hd]; [now left | right; apply in_or_app; now left].
Qed.

Lemma youtube_completion_needs_plays_witness :
  exists d, In (YReady d) [YReady 1; YPlay; YTick] /\ (0 < d)%Q /\
            (d <= inject_Z (Z.of_nat (plays [YReady 1; YPlay; YTick])))%Q.
Proof.
  apply (youtube_completion_needs_plays true [YReady 1; YPlay; YTick]).
  vm_compute. constructor.
Defined.

(** X18. Once the seconds counted have reached the duration, every
    further render of the dialog invokes [onComplete] once more: the
    callback is a new function at each render, so the effect runs again
    and finds its condition still true. *)
Theorem youtube_completion_repeats (s : YouTubeState) (n : nat) :
  Qle_bool (yt_duration s) (inject_Z (Z.of_nat (playedSeconds s))) = true ->
  positive (yt_duration s) = true ->
  onComplete_calls (fold_left (youtube_step true) (repeat YParentRender n) s)
  = (onComplete_calls s + n)%nat.
Proof.
  revert s; induction n as [|n IH]; intros s H1 H2; simpl; [lia|].
  assert (E : yt_rerun true s
              = mkYouTubeState (playedSeconds s) (isPlaying s) (yt_duration s)
                               false (S (onComplete_calls s))).
  { unfold yt_rerun, yt_effect, yt_cleanup. simpl. now rewrite H1, H2. }
  rewrite E, IH; simpl; [lia | exact H1 | exact H2].
Qed.

Lemma youtube_completion_repeats_witness :
  onComplete_calls
    (fold_left (youtube_step true) (repeat YParentRender 3)
       (youtube_session true [YReady 1; YPlay; YTick]))
  = 4%nat.
Proof.
  apply (youtube_completion_repeats
           (youtube_session true [YReady 1; YPlay; YTick]) 3);
    vm_compute; reflexivity.
Defined.

(* ================================================================== *)
(** * The video id                                                     *)
(* ================================================================== *)

Section VideoId.

Import ResolverSpec.

Lemma split2_cons (c c' : ascii) (s : string) :
  split2 "v" "=" (String c (String c' s))
  = if Ascii.eqb c "v" && Ascii.eqb c' "=" then EmptyString :: split2 "v" "=" s
    else cons_char c (split2 "v" "=" (String c' s)).
Proof. reflexivity. Qed.

Lemma split2_nonempty (s : string) : split2 "v" "=" s <> [].
Proof.
  destruct s as [|c [|c' s]]; try discriminate.
  rewrite split2_cons. destruct (_ && _); [discriminate|].
  unfold cons_char. destruct (split2 "v" "=" (String c' s)); discriminate.
Qed.

Lemma contains_tail (sub : string) (c : ascii) (s : string) :
  contains sub s -> contains sub (String c s).
Proof. intros (a & b & ->). now exists (String c a), b. Qed.

Lemma split2_no_sep (s : string) :
  ~ contains "v=" s -> split2 "v" "=" s = [s].
Proof.
  induction s as [|c s IH]; intros H; [reflexivity|].
  destruct s as [|c' s]; [reflexivity|].
  rewrite split2_cons.
  destruct (Ascii.eqb_spec c "v") as [-> | Hc];
    [destruct (Ascii.eqb_spec c' "=") as [-> | Hc']|]; cbn [andb].
  - exfalso. apply H. now exists "", s.
  - rewrite IH; [reflexivity|]. intros Hs. apply H. now apply contains_tail.
  - rewrite IH; [reflexivity|]. intros Hs. apply H. now apply contains_tail.
Qed.

Lemma split2_app (pre t : string) :
  ~ contains "v=" pre ->
  split2 "v" "=" (pre ++ String "v" (String "=" t)) = pre :: split2 "v" "=" t.
Proof.
  induction pre as [|c pre IH]; intros H; [reflexivity|].
  assert (Hpre : ~ contains "v=" pre)
    by (intros Hs; apply H; now apply contains_tail).
  specialize (IH Hpre).
  destruct pre as [|c' pre].
  - simpl in IH |- *. rewrite andb_false_r. simpl. reflexivity.
  - change (String c (String c' pre) ++ String "v" (String "=" t))
      with (String c (String c' (pre ++ String "v" (String "=" t)))).
    rewrite split2_cons.
    destruct (Ascii.eqb_spec c "v") as [-> | Hc];
      [destruct (Ascii.eqb_spec c' "=") as [-> | Hc']|]; cbn [andb].
    + exfalso. apply H. now exists "", pre.
    + change (String c' (pre ++ String "v" (String "=" t)))
        with (String c' pre ++ String "v" (String "=" t)).
      rewrite IH. reflexivity.
    + change (String c' (pre ++ String "v" (String "=" t)))
        with (String c' pre ++ String "v" (String "=" t)).
      rewrite IH. reflexivity.
Qed.

Lemma split2_head (id r : string) :
  ~ contains "v=" id ->
  exists x rest,
    split2 "v" "=" (id ++ String "&" r) = (id ++ String "&" x) :: rest.
Proof.
  induction id as [|c id IH]; intros H.
  - change ("" ++ String "&" r) with (String "&" r).
    destruct r as [|c' r]; [now exists "", []|].
    rewrite split2_cons. change (Ascii.eqb "&" "v") with false. cbn [andb].
    pose proof (split2_nonempty (String c' r)) as Hne.
    destruct (split2 "v" "=" (String c' r)) as [|h rest]; [contradiction|].
    exists h, rest. reflexivity.
  - assert (Hid : ~ contains "v=" id)
      by (intros Hs; apply H; now apply contains_tail).
    destruct (IH Hid) as (x & rest & E).
    destruct id as [|c' id].
    + change ("" ++ String "&" r) with (String "&" r) in E.
      change (String c "" ++ String "&" r) with (String c (String "&" r)).
      rewrite split2_cons. change (Ascii.eqb "&" "=") with false.
      rewrite andb_false_r, E. now exists x, rest.
    + change (String c (String c' id) ++ String "&" r)
        with (String c (String c' (id ++ String "&" r))).
      rewrite split2_cons.
      change (String c' (id ++ String "&" r)) with (String c' id ++ String "&" r).
      destruct (Ascii.eqb_spec c "v") as [-> | Hc];
        [destruct (Ascii.eqb_spec c' "=") as [-> | Hc']|]; cbn [andb].
      * exfalso. apply H. now exists "", id.
      * rewrite E. now exists x, rest.
      * rewrite E. now exists x, rest.
Qed.

End VideoId.

(** X19. The id handed to the embedded player: for a watch URL it is
    what stands between the first [v=] and the next [&] (or the end),
    and for a URL without [v=], such as a short link, it is what
    follows the last [/]. *)
Theorem videoId_extracts (pre id : string) :
  (~ ResolverSpec.contains "v=" pre ->
   id <> "" -> ~ ResolverSpec.contains "v=" id -> ~ ResolverSpec.occurs "&" id ->
   videoId (pre ++ "v=" ++ id) = id /\
   forall r, videoId (pre ++ "v=" ++ id ++ String "&" r) = id) /\
  (~ ResolverSpec.contains "v=" (pre ++ String "/" id) ->
   ~ ResolverSpec.occurs "/" id ->
   videoId (pre ++ String "/" id) = id).
Proof.
  split.
  - intros Hpre Hid Hv Hamp. apply str_truthy_spec in Hid. split.
    + unfold videoId.
      change (pre ++ "v=" ++ id) with (pre ++ String "v" (String "=" id)).
      rewrite (split2_app pre id Hpre), (split2_no_sep id Hv). simpl.
      rewrite (split_no_sep _ _ Hamp). simpl. now rewrite Hid.
    + intros r. unfold videoId.
      change (pre ++ "v=" ++ id ++ String "&" r)
        with (pre ++ String "v" (String "=" (id ++ String "&" r))).
      rewrite (split2_app pre _ Hpre).
      destruct (split2_head id r Hv) as (x & rest & E). rewrite E. simpl.
      assert (F : JS.first (JS.split "&" (id ++ String "&" x)) = id).
      { apply first_split_spec. split; [exact Hamp|]. right. now exists x. }
      rewrite F. now rewrite Hid.
  - intros Hv Hslash. unfold videoId.
    rewrite (split2_no_sep _ Hv). simpl.
    apply pop_split_spec. split; [exact Hslash|]. right. now exists pre.
Qed.

Lemma videoId_extracts_witness :
  videoId "https://www.youtube.com/watch?v=dQw4w9WgXcQ&t=42" = "dQw4w9WgXcQ".
Proof.
  refine (proj2 (proj1 (videoId_extracts "https://www.youtube.com/watch?"
                          "dQw4w9WgXcQ") _ _ _ _) "t=42").
  - rewrite <- includes_spec. vm_compute. discriminate.
  - discriminate.
  - rewrite <- includes_spec. vm_compute. discriminate.
  - exact (proj1 (proj1 (first_split_spec "&" "dQw4w9WgXcQ" "dQw4w9WgXcQ") eq_refl)).
Defined.

(* ================================================================== *)
(** * Search, filters and sort of the course list                      *)
(* ================================================================== *)

Section Search.

Variable q : string.

Lemma someLesson_titled (ls : list Lesson) :
  (forall l, In l ls -> lesson_title l <> None) ->
  someLesson q ls = Value (existsb (lessonMatches q) ls).
Proof.
  induction ls as [|l ls IH]; intros H; [reflexivity|].
  simpl. unfold lessonMatches at 1.
  destruct (lesson_title l) as [t|] eqn:E.
  - destruct (JS.includes q (JS.toLowerCase t)); [reflexivity|].
    apply IH. intros l' Hl'. apply H. now right.
  - exfalso. apply (H l); [now left | exact E].
Qed.

Lemma someModule_titled (ms : list Module_) :
  (forall m, In m ms ->
     module_title m <> None /\
     exists ls, lessons m = Some ls /\ forall l, In l ls -> lesson_title l <> None) ->
  someModule q ms = Value (existsb (moduleMatches q) ms).
Proof.
  induction ms as [|m ms IH]; intros H; [reflexivity|].
  simpl. unfold moduleMatchesT, moduleMatches at 1.
  destruct (H m (or_introl eq_refl)) as (Hm & ls & Hls & Ht). rewrite Hls.
  destruct (module_title m) as [t|]; [|contradiction].
  destruct (JS.includes q (JS.toLowerCase t)); [reflexivity|].
  rewrite (someLesson_titled ls Ht). simpl.
  destruct (existsb (lessonMatches q) ls); [reflexivity|].
  apply IH. intros m' Hm'. apply H. now right.
Qed.

Lemma courseMatchesT_titled (c : Course) :
  well_titled c -> courseMatchesT q c = Value (courseMatches q c).
Proof.
  intros H. unfold courseMatchesT, courseMatches.
  destruct (JS.includes q (JS.toLowerCase (title c))); [reflexivity|].
  now apply someModule_titled.
Qed.

Lemma someLesson_true (ls : list Lesson) :
  someLesson q ls = Value true ->
  exists l t, In l ls /\ lesson_title l = Some t /\
              ResolverSpec.contains q (JS.toLowerCase t).
Proof.
  induction ls as [|l ls IH]; simpl; [discriminate|].
  destruct (lesson_title l) as [t|] eqn:E; [|discriminate].
  destruct (JS.includes q (JS.toLowerCase t)) eqn:Ei.
  - intros _. exists l, t. split; [now left|]. split; [exact E|].
    now apply includes_spec.
  - intros H. destruct (IH H) as (l' & t' & Hin & Ht & Hc).
    exists l', t'. split; [now right | now split].
Qed.

Lemma someModule_true (ms : list Module_) :
  someModule q ms = Value true ->
  exists m, In m ms /\
    ((exists t, module_title m = Some t /\
                ResolverSpec.contains q (JS.toLowerCase t)) \/
     exists ls l t, lessons m = Some ls /\ In l ls /\ lesson_title l = Some t /\
                    ResolverSpec.contains q (JS.toLowerCase t)).
Proof.
  induction ms as [|m ms IH]; simpl; [discriminate|].
  unfold moduleMatchesT.
  destruct (module_title m) as [t|] eqn:Et; [|discriminate].
  destruct (JS.includes q (JS.toLowerCase t)) eqn:Ei.
  - intros _. exists m. split; [now left|]. left.
    exists t. split; [exact Et | now apply includes_spec].
  - destruct (lessons m) as [ls|] eqn:El; [|discriminate].
    destruct (someLesson q ls) as [[|]|] eqn:Es; [| |discriminate].
    + intros _. exists m. split; [now left|]. right.
      destruct (someLesson_true ls Es) as (l & t' & Hin & Ht & Hc).
      now exists ls, l, t'.
    + intros H. destruct (IH H) as (m' & Hin & Hm').
      exists m'. split; [now right | exact Hm'].
Qed.

End Search.

(** X20. When every module has a title and its list of lessons, and
    every lesson a title, the search never throws, and it keeps exactly
    the courses that the title test accepts, in their order.  A module
    or a lesson without a title is what makes [toLowerCase] throw. *)
Theorem search_is_total_on_titled (q : string) (l : list Course) :
  Forall well_titled l ->
  searchCourses q l = Value (filter (courseMatches q) l).
Proof.
  induction 1 as [|c l Hc Hl IH]; [reflexivity|].
  simpl. rewrite (courseMatchesT_titled q c Hc), IH. reflexivity.
Qed.

Lemma search_is_total_on_titled_witness :
  searchCourses "lim" [Sample.calculus; Sample.statistics] = Value [Sample.calculus].
Proof.
  refine (eq_trans (search_is_total_on_titled "lim"
                      [Sample.calculus; Sample.statistics] _) _).
  - constructor; [|constructor; [|constructor]];
      intros m [<-|[]]; (split; [discriminate|]);
      eexists; (split; [reflexivity|]); intros l [<-|[]]; discriminate.
  - reflexivity.
Defined.

(** A module without a title makes the search throw, whatever its
    lessons are. *)
Remark untitled_module_throws :
  searchCourses "lim" [Sample.untitled] = TypeError.
Proof. reflexivity. Qed.

Lemma searchCourses_sound (q : string) (l out : list Course) :
  searchCourses q l = Value out ->
  forall c, In c out -> In c l /\ mentions q c.
Proof.
  revert out; induction l as [|c0 l IH]; simpl; intros out.
  - intros [= <-] c [].
  - destruct (courseMatchesT q c0) as [keep|] eqn:Ek; [|discriminate].
    destruct (searchCourses q l) as [l'|]; [|discriminate].
    intros [= <-] c Hc.
    assert (Hrest : In c l' -> In c (c0 :: l) /\ mentions q c).
    { intros H. destruct (IH l' eq_refl c H). split; [now right | assumption]. }
    destruct keep; [|now apply Hrest].
    destruct Hc as [<- | Hc]; [|now apply Hrest].
    split; [now left|].
    unfold courseMatchesT in Ek. unfold mentions.
    destruct (JS.includes q (JS.toLowerCase (title c0))) eqn:Ei.
    + left. now apply includes_spec.
    + right. now apply someModule_true.
Qed.

(** X21. Every course the search returns is one of the list and
    contains the search term, letter case aside, in its title, in the
    title of one of its modules or in the title of one of their
    lessons. *)
Theorem search_results_mention_term (q : string) (l out : list Course) :
  searchCourses q l = Value out ->
  forall c, In c out -> In c l /\ mentions q c.
Proof. apply searchCourses_sound. Qed.

Lemma search_results_mention_term_witness :
  In Sample.algebra [Sample.algebra; Sample.geometry] /\
  mentions "alg" Sample.algebra.
Proof.
  apply (search_results_mention_term "alg" [Sample.algebra; Sample.geometry]
           [Sample.algebra] eq_refl).
  now left.
Defined.

Section Sorting.

Variable cmp : Course -> Course -> Q.

Lemma insertBy_perm (x : Course) (l : list Course) :
  Permutation (insertBy cmp x l) (x :: l).
Proof.
  induction l as [|y l IH]; simpl; [reflexivity|].
  destruct (Qle_bool (cmp x y) 0); [reflexivity|].
  rewrite IH. apply perm_swap.
Qed.

Lemma sortWith_perm (l : list Course) : Permutation (sortWith cmp l) l.
Proof.
  induction l as [|x l IH]; simpl; [reflexivity|].
  rewrite insertBy_perm. now constructor.
Qed.

End Sorting.

Section SortByProgress.

Let cmp (a b : Course) : Q := (progress b - progress a)%Q.

Lemma cmp_le (x y : Course) :
  Qle_bool (cmp x y) 0 = true -> progress_desc x y.
Proof.
  unfold cmp, progress_desc. intros H. apply Qle_bool_iff in H.
  apply (Qplus_le_l _ _ (- progress x)).
  setoid_replace (progress x + - progress x)%Q with 0%Q by ring. exact H.
Qed.

Lemma cmp_gt (x y : Course) :
  Qle_bool (cmp x y) 0 = false -> progress_desc y x.
Proof.
  unfold cmp, progress_desc. intros H.
  destruct (Qlt_le_dec (progress x) (progress y)) as [Hlt | Hle].
  - now apply Qlt_le_weak.
  - assert (X : Qle_bool (progress y - progress x) 0 = true).
    { apply Qle_bool_iff. apply (Qplus_le_l _ _ (progress x)).
      setoid_replace (progress y - progress x + progress x)%Q with (progress y) by ring.
      setoid_replace (0 + progress x)%Q with (progress x) by ring. exact Hle. }
    congruence.
Qed.

Lemma insertBy_sorted (x : Course) (l : list Course) :
  Sorted progress_desc l -> Sorted progress_desc (insertBy cmp x l).
Proof.
  induction l as [|y l IH]; intros H; simpl.
  - repeat constructor.
  - destruct (Qle_bool (cmp x y) 0) eqn:E.
    + constructor; [exact H|]. constructor. now apply cmp_le.
    + inversion H as [|? ? Hs Hh]; subst.
      constructor; [now apply IH|].
      destruct l as [|z l]; simpl.
      * constructor. now apply cmp_gt.
      * destruct (Qle_bool (cmp x z) 0).
        -- constructor. now apply cmp_gt.
        -- inversion Hh; subst. now constructor.
Qed.

Lemma sortWith_progress_sorted (l : list Course) :
  Sorted progress_desc (sortWith cmp l).
Proof.
  induction l as [|x l IH]; simpl; [constructor|]. now apply insertBy_sorted.
Qed.

End SortByProgress.

(** X22. Sorting keeps the courses and only reorders them, whatever
    the key; by [progress] the result goes from the highest progress to
    the lowest; and a key that is none of [title], [progress] and
    [enrolled_at] leaves the order as it was. *)
Theorem sort_reorders
    (localeCompare : string -> string -> Q) (dateValue : option string -> Q)
    (key : string) (l : list Course) :
  let sorted := sortWith (compareCourses localeCompare dateValue key) l in
  Permutation sorted l /\
  (key = "progress" -> Sorted progress_desc sorted) /\
  (key <> "title" -> key <> "progress" -> key <> "enrolled_at" -> sorted = l).
Proof.
  intros sorted. subst sorted. split; [apply sortWith_perm|]. split.
  - intros ->.
    replace (compareCourses localeCompare dateValue "progress")
      with (fun a b : Course => (progress b - progress a)%Q) by reflexivity.
    apply sortWith_progress_sorted.
  - intros H1 H2 H3. apply String.eqb_neq in H1, H2, H3.
    induction l as [|x l IH]; [reflexivity|].
    simpl. rewrite IH. destruct l as [|y l]; [reflexivity|].
    simpl. unfold compareCourses. now rewrite H1, H2, H3.
Qed.

Lemma sort_reorders_witness :
  Sorted progress_desc
    (sortWith (compareCourses (fun _ _ => 0) (fun _ => 0) "progress")
              [Sample.algebra; Sample.geometry]).
Proof.
  exact (proj1 (proj2 (sort_reorders (fun _ _ => 0) (fun _ => 0) "progress"
                         [Sample.algebra; Sample.geometry])) eq_refl).
Defined.

Section FilterEffect.

Variable API_BASE_URL : string.

Lemma transformCourses_from (cs : list Enrollment) (l : list Course) (c : Course) :
  transformCourses API_BASE_URL cs = Value l -> In c l ->
  exists e, In e cs /\ transformCourse API_BASE_URL e = Value (Some c).
Proof.
  revert l; induction cs as [|e cs IH]; simpl; intros l.
  - now intros [= <-] [].
  - destruct (transformCourse API_BASE_URL e) as [oc|] eqn:E; [|discriminate].
    destruct (transformCourses API_BASE_URL cs) as [l'|]; [|discriminate].
    intros [= <-] Hc.
    assert (Hrest : In c l' ->
              exists e0, (e = e0 \/ In e0 cs) /\
                         transformCourse API_BASE_URL e0 = Value (Some c)).
    { intros H. destruct (IH l' eq_refl H) as (e0 & Hin & He0).
      exists e0. split; [now right | exact He0]. }
    destruct oc as [c0|]; [|now apply Hrest].
    destruct Hc as [<- | Hc]; [|now apply Hrest].
    exists e. split; [now left | exact E].
Qed.

End FilterEffect.

(** X23. What the second effect hands to the list: every course comes
    from an enrolment of the [courses] prop through the transform; with
    a status filter other than [all] every course has that status; with
    a search term every course mentions it; and sorted by [progress] the
    list goes from the highest progress to the lowest. *)
Theorem filterEffect_output
    (API_BASE_URL : string)
    (localeCompare : string -> string -> Q) (dateValue : option string -> Q)
    (courses : list Enrollment) (f : Filters) (bookmarks : Bookmarks)
    (out : list Course) :
  filterEffect API_BASE_URL localeCompare dateValue courses f bookmarks = Value out ->
  (forall c, In c out ->
     exists e, In e courses /\ transformCourse API_BASE_URL e = Value (Some c)) /\
  (f_status f <> "all" -> forall c, In c out -> status c = f_status f) /\
  (f_search f <> "" ->
     forall c, In c out -> mentions (JS.toLowerCase (f_search f)) c) /\
  (f_sort f = "progress" -> Sorted progress_desc out).
Proof.
  unfold filterEffect.
  destruct (transformCourses API_BASE_URL courses) as [r0|] eqn:E0; [|discriminate].
  destruct (if JS.str_truthy (f_search f) then _ else _) as [r1|] eqn:E1;
    [|discriminate].
  cbv zeta. intros [= <-].
  set (r2 := if negb (f_status f =? "all")
             then filter (fun c => status c =? f_status f) r1 else r1).
  set (r3 := if f_view f =? "bookmarked"
             then filterByIndex (map slot_truthy bookmarks) r2 else r2).
  assert (H32 : forall c, In c r3 -> In c r2).
  { intros c. unfold r3. destruct (f_view f =? "bookmarked"); [|easy].
    apply filterByIndex_incl. }
  assert (H21 : forall c, In c r2 -> In c r1).
  { intros c. unfold r2. destruct (negb _); [|easy]. intros H.
    now apply filter_In in H. }
  assert (H10 : forall c, In c r1 -> In c r0).
  { intros c Hc. destruct (JS.str_truthy (f_search f)).
    - now destruct (searchCourses_sound _ _ _ E1 c Hc).
    - injection E1 as <-. exact Hc. }
  assert (Hout : forall c,
            In c (sortWith (compareCourses localeCompare dateValue (f_sort f)) r3) ->
            In c r3).
  { intros c. apply Permutation_in, sortWith_perm. }
  split; [|split; [|split]].
  - intros c Hc. apply (transformCourses_from API_BASE_URL courses r0 c E0).
    auto.
  - intros Hs c Hc. apply Hout, H32 in Hc. unfold r2 in Hc.
    apply String.eqb_neq in Hs. rewrite Hs in Hc. simpl in Hc.
    apply filter_In in Hc. destruct Hc as [_ Hc]. now apply String.eqb_eq.
  - intros Hs c Hc. apply Hout, H32, H21 in Hc.
    apply str_truthy_spec in Hs. rewrite Hs in E1.
    now destruct (searchCourses_sound _ _ _ E1 c Hc).
  - intros Hk. rewrite Hk.
    replace (compareCourses localeCompare dateValue "progress")
      with (fun a b : Course => (progress b - progress a)%Q) by reflexivity.
    apply sortWith_progress_sorted.
Qed.

Lemma filterEffect_output_witness :
  Sorted progress_desc
    [mkCourse 11 (Some 3%Z) false (Some "2024-01-10T08:00:00.000Z")
       30 None (Some "2024-03-01T10:00:00.000Z")
       (Some (mkInnerCourse 5 (Some "Algebra") (Some "/media/a.png")
                            None None None None))
       5 "Algebra" "https://api.example.org/media/a.png" "" [] [] []
       "completed"].
Proof.
  exact (proj2 (proj2 (proj2 (filterEffect_output "https://api.example.org"
           (fun _ _ => 0) (fun _ => 0) [Sample.enrolment]
           (mkFilters "completed" "" "progress" "all") [] _ eq_refl))) eq_refl).
Defined.

(* ================================================================== *)
(** * The statistics row and the course card                           *)
(* ================================================================== *)

Section StatsFacts.

Lemma filter_length_cons (f : Enrollment -> bool) (c : Enrollment) (cs : list Enrollment) :
  List.length (filter f (c :: cs))
  = (Nat.b2n (f c) + List.length (filter f cs))%nat.
Proof. simpl. destruct (f c); reflexivity. Qed.

Lemma status_slot (c : Enrollment) :
  let k := (Nat.b2n (opt_is (enr_status c) "in_progress")
            + Nat.b2n (opt_is (enr_status c) "completed")
            + Nat.b2n (opt_is (enr_status c) "not_started"))%nat in
  (k <= 1)%nat /\
  (k = 1%nat <->
   enr_status c = Some "in_progress" \/ enr_status c = Some "completed" \/
   enr_status c = Some "not_started").
Proof.
  cbv zeta. unfold opt_is. destruct (enr_status c) as [t|].
  - destruct (String.eqb_spec t "in_progress") as [-> | H1].
    { simpl. split; [lia|]. split; [tauto | reflexivity]. }
    destruct (String.eqb_spec t "completed") as [-> | H2].
    { simpl. split; [lia|]. split; [tauto | reflexivity]. }
    destruct (String.eqb_spec t "not_started") as [-> | H3].
    { simpl. split; [lia|]. split; [tauto | reflexivity]. }
    simpl. split; [lia|]. split; [discriminate|].
    intros [E | [E | E]]; injection E as E; contradiction.
  - simpl. split; [lia|]. split; [discriminate|].
    intros [E | [E | E]]; discriminate E.
Qed.

End StatsFacts.

(** X24. The three status counts of the statistics row never add up
    to more than the total, and they add up to the total exactly when
    the backend status of every enrolment is one of [in_progress],
    [completed] and [not_started]; an enrolment with another status, or
    with none, is counted in the total only. *)
Theorem stats_partition (cs : list Enrollment) :
  let s := stats cs in
  (stat_inProgress s + stat_completed s + stat_notStarted s <= stat_total s)%nat /\
  ((stat_inProgress s + stat_completed s + stat_notStarted s = stat_total s)%nat <->
   forall c, In c cs ->
     enr_status c = Some "in_progress" \/ enr_status c = Some "completed" \/
     enr_status c = Some "not_started").
Proof.
  unfold stats, countStatus.
  cbn [stat_total stat_inProgress stat_completed stat_notStarted].
  induction cs as [|c cs [IHle IHeq]].
  - simpl. split; [lia|]. split; [intros _ c [] | reflexivity].
  - rewrite !filter_length_cons. cbn [List.length].
    destruct (status_slot c) as [Hle Heq]. cbv zeta in Hle, Heq.
    split; [lia|]. split.
    + intros H c' [<- | Hc'].
      * apply Heq. lia.
      * apply IHeq; [lia | exact Hc'].
    + intros H.
      assert (H1 : forall c', In c' cs -> _) by (intros c' Hc'; apply (H c'); now right).
      apply IHeq in H1. apply (proj2 Heq) in H; [lia | now left].
Qed.

(** X25. The button of a card and the status the transform derives
    agree on whether the course was begun: a course shown as
    [in_progress] offers "Continue", one shown as [not_started] offers
    "Start"; and "Start" is never offered for a course in progress. *)
Theorem card_action_matches_status
    (API_BASE_URL : string) (e : Enrollment) (c : Course) :
  transformCourse API_BASE_URL e = Value (Some c) ->
  (status c = "in_progress" -> cardAction c = "Continue") /\
  (status c = "not_started" -> cardAction c = "Start") /\
  (cardAction c = "Start" -> status c <> "in_progress").
Proof.
  intros H. destruct (transformCourse_fields API_BASE_URL e c H) as (_ & Hp & Hs).
  unfold cardAction. rewrite Hs, Hp. unfold derivedStatus.
  destruct (JS.truthy (enr_completed_at e)); destruct (positive (enr_progress e));
    repeat split; intros; try discriminate; try reflexivity.
Qed.

Lemma card_action_matches_status_witness :
  cardAction
    (mkCourse 11 (Some 3%Z) false None 30 None None
       (Some (mkInnerCourse 5 (Some "Algebra") (Some "/media/a.png")
                            None None None None))
       5 "Algebra" "https://api.example.org/media/a.png" "" [] [] []
       "in_progress")
  = "Continue".
Proof.
  refine (proj1 (card_action_matches_status "https://api.example.org"
            (mkEnrollment 11 (Some 3%Z) false None 30 None None None
               (Some (mkInnerCourse 5 (Some "Algebra") (Some "/media/a.png")
                                    None None None None)))
            _ eq_refl) eq_refl).
Defined.

(* ================================================================== *)
(** * Invariants of a playback session                                 *)
(* ================================================================== *)

Section PlayerFacts.

Variable provided : bool.

Lemma play_session_snoc (es : list PlayerEvent) (e : PlayerEvent) :
  play_session provided (es ++ [e])
  = player_step provided (play_session provided es) e.
Proof. unfold play_session. now rewrite fold_left_app. Qed.

Lemma endings_snoc (es : list PlayerEvent) (e : PlayerEvent) :
  endings (es ++ [e]) = (endings es + Nat.b2n (is_ended e))%nat.
Proof.
  unfold endings. rewrite filter_app, length_app. simpl.
  destruct (is_ended e); reflexivity.
Qed.

Lemma step_calls (p : Player) (e : PlayerEvent) :
  onEnded_calls (player_step provided p e)
  = (onEnded_calls p + (if provided then Nat.b2n (is_ended e) else 0))%nat.
Proof.
  destruct e as [d| |t| |i| |].
  - simpl. destruct provided; lia.
  - simpl. destruct provided; lia.
  - rewrite timeupdate_never_calls. simpl. destruct provided; lia.
  - simpl. destruct provided; simpl; lia.
  - simpl. destruct (nth_error playbackRates i); simpl; destruct provided; lia.
  - simpl. destruct (completed p); simpl; destruct provided; lia.
  - simpl. destruct provided; lia.
Qed.

Lemma step_rate (p : Player) (e : PlayerEvent) :
  offered (playbackRate p) -> offered (playbackRate (player_step provided p e)).
Proof.
  intros H. destruct e; simpl; try exact H.
  - unfold handleTimeUpdate. simpl. destruct (_ && _); exact H.
  - destruct (nth_error playbackRates i) as [rate|] eqn:E; [|exact H].
    simpl. exists i, rate. split; [exact E | reflexivity].
  - destruct (completed p); exact H.
Qed.

End PlayerFacts.

(** X26. Over a whole playback session the [onEnded] prop is invoked
    once for every [ended] event of the video element and at no other
    moment, whatever seeking, pausing, replaying or reopening happens in
    between; without the prop nothing is invoked. *)
Theorem onEnded_counts_endings (provided : bool) (es : list PlayerEvent) :
  onEnded_calls (play_session provided es)
  = if provided then endings es else 0%nat.
Proof.
  induction es as [|e es IH] using rev_ind.
  - now destruct provided.
  - rewrite play_session_snoc, step_calls, IH, endings_snoc.
    destruct provided; lia.
Qed.

(** X27. Throughout a playback session the playback rate is one of
    the rates the select offers. *)
Theorem playbackRate_always_offered (provided : bool) (es : list PlayerEvent) :
  offered (playbackRate (play_session provided es)).
Proof.
  induction es as [|e es IH] using rev_ind.
  - exists 2%nat, 1%Q. split; reflexivity.
  - rewrite play_session_snoc. now apply step_rate.
Qed.
